(** * vscode-select: the option / selection / keyboard state machine

    A shallow embedding of [src/vscode-select/includes/vscode-select-base.ts]
    (class [VscodeSelectBase]).  Every method that mutates the widget is a
    computation in a small monad that threads the widget together with the
    [window] click-listener list, records the observable side effects
    (listener calls, [vsc-change] events, console warnings, and calls on the
    keyboard event) and can end in a JavaScript exception. *)

From Stdlib Require Import ZArith String Ascii List Bool Lia Sorted.
From stdpp Require Import base list.
Import ListNotations.

Local Open Scope string_scope.
Local Open Scope list_scope.
Local Open Scope Z_scope.

(** ** Data model *)

(** Modelled from the spec: [./types] ([Option], [InternalOption],
    [SearchMethod]) is imported by the class but is not among the sources.
    Section 3 of the specification lists the fields of an option record:
    label, value, optional description, selected flag; the internal record
    adds the index.  A search method is a string at run time. *)
Record Option := mkOption {
  label : string;
  value : string;
  description : option string;
  selected : bool;
}.

(** [InternalOption extends Option] with [index: number]; the object built
    by [{...op, index}]. *)
Record InternalOption := mkInternalOption {
  op : Option;
  index : Z;
}.

Definition SearchMethod := string.

(** [interface OptionListStat]. *)
Record OptionListStat := mkStat {
  selectedIndexes : list Z;
  values : list string;
}.

(** The fields of [VscodeSelectBase] that its event handlers read or write. *)
Record VscodeSelectBase := mkSelect {
  ariaExpanded : string;
  combobox : bool;
  focused : bool;
  _activeIndex : Z;
  _filter : SearchMethod;
  _filterPattern : string;
  _selectedIndex : Z;
  _selectedIndexes : list Z;
  _showDropdown : bool;
  _options : list InternalOption;
  _value : string;
  _values : list string;
  _multiple : bool;
}.

(** A node assigned to the main slot, as far as
    [_addOptionsFromSlottedElements] looks at it. *)
Record SlotNode := mkNode {
  nodeType : Z;
  matches_vscode_option : bool;   (* el.matches('vscode-option') *)
  innerText : string;
  hasAttribute_value : bool;      (* el.hasAttribute('value') *)
  node_value : string;
  node_description : string;
  node_selected : bool;
}.

Definition ELEMENT_NODE : Z := 1.
Definition TEXT_NODE : Z := 3.

(** The only function ever registered on [window]: [_onClickOutsideBound]. *)
Inductive Listener := OnClickOutsideBound.

Definition Listener_eqb (a b : Listener) : bool :=
  match a, b with OnClickOutsideBound, OnClickOutsideBound => true end.

(** Payload of the [vsc-change] custom event. *)
Inductive ChangeDetail :=
| SingleDetail (selectedIndex : Z) (value : string)
| MultiDetail (selectedIndexes : list Z) (value : list string).

(** Observable side effects, in the order in which they happen. *)
Inductive Effect :=
| StopPropagation
| PreventDefault
| AddEventListener (l : Listener)
| RemoveEventListener (l : Listener)
| DispatchChange (detail : ChangeDetail)
| ConsoleWarn (msg : string).

(** The widget and the part of its environment that it mutates. *)
Record World := mkWorld {
  this : VscodeSelectBase;
  windowClickListeners : list Listener;
}.

(** ** Field updates *)

Definition set_ariaExpanded (v : string) (s : VscodeSelectBase) :=
  mkSelect v (combobox s) (focused s) (_activeIndex s) (_filter s)
    (_filterPattern s) (_selectedIndex s) (_selectedIndexes s)
    (_showDropdown s) (_options s) (_value s) (_values s) (_multiple s).

Definition set_focused (v : bool) (s : VscodeSelectBase) :=
  mkSelect (ariaExpanded s) (combobox s) v (_activeIndex s) (_filter s)
    (_filterPattern s) (_selectedIndex s) (_selectedIndexes s)
    (_showDropdown s) (_options s) (_value s) (_values s) (_multiple s).

Definition set_activeIndex (v : Z) (s : VscodeSelectBase) :=
  mkSelect (ariaExpanded s) (combobox s) (focused s) v (_filter s)
    (_filterPattern s) (_selectedIndex s) (_selectedIndexes s)
    (_showDropdown s) (_options s) (_value s) (_values s) (_multiple s).

Definition set_filter (v : SearchMethod) (s : VscodeSelectBase) :=
  mkSelect (ariaExpanded s) (combobox s) (focused s) (_activeIndex s) v
    (_filterPattern s) (_selectedIndex s) (_selectedIndexes s)
    (_showDropdown s) (_options s) (_value s) (_values s) (_multiple s).

Definition set_filterPattern (v : string) (s : VscodeSelectBase) :=
  mkSelect (ariaExpanded s) (combobox s) (focused s) (_activeIndex s)
    (_filter s) v (_selectedIndex s) (_selectedIndexes s)
    (_showDropdown s) (_options s) (_value s) (_values s) (_multiple s).

Definition set_selectedIndex (v : Z) (s : VscodeSelectBase) :=
  mkSelect (ariaExpanded s) (combobox s) (focused s) (_activeIndex s)
    (_filter s) (_filterPattern s) v (_selectedIndexes s)
    (_showDropdown s) (_options s) (_value s) (_values s) (_multiple s).

Definition set_selectedIndexes (v : list Z) (s : VscodeSelectBase) :=
  mkSelect (ariaExpanded s) (combobox s) (focused s) (_activeIndex s)
    (_filter s) (_filterPattern s) (_selectedIndex s) v
    (_showDropdown s) (_options s) (_value s) (_values s) (_multiple s).

Definition set_showDropdown (v : bool) (s : VscodeSelectBase) :=
  mkSelect (ariaExpanded s) (combobox s) (focused s) (_activeIndex s)
    (_filter s) (_filterPattern s) (_selectedIndex s) (_selectedIndexes s)
    v (_options s) (_value s) (_values s) (_multiple s).

Definition set_options (v : list InternalOption) (s : VscodeSelectBase) :=
  mkSelect (ariaExpanded s) (combobox s) (focused s) (_activeIndex s)
    (_filter s) (_filterPattern s) (_selectedIndex s) (_selectedIndexes s)
    (_showDropdown s) v (_value s) (_values s) (_multiple s).

Definition set_value (v : string) (s : VscodeSelectBase) :=
  mkSelect (ariaExpanded s) (combobox s) (focused s) (_activeIndex s)
    (_filter s) (_filterPattern s) (_selectedIndex s) (_selectedIndexes s)
    (_showDropdown s) (_options s) v (_values s) (_multiple s).

(** [op.selected = v] on one option object. *)
Definition set_selected (v : bool) (o : InternalOption) : InternalOption :=
  mkInternalOption
    (mkOption (label (op o)) (value (op o)) (description (op o)) v)
    (index o).

(** ** JavaScript primitives used by the class *)

(** [arr[i]] for a number [i]: [undefined] outside [0 .. length-1]. *)
Definition js_index {A : Type} (l : list A) (i : Z) : option A :=
  if i <? 0 then None else l !! Z.to_nat i.

(** [arr.includes(x)] on an array of strings. *)
Definition includes (l : list string) (x : string) : bool :=
  existsb (String.eqb x) l.

(** [String(b)] for a boolean. *)
Definition String_of_bool (b : bool) : string :=
  if b then "true" else "false".

(** ** The monad of the event handlers *)

Inductive JsError := TypeError.

Inductive Completion (A : Type) :=
| Normal (a : A)
| Throw (e : JsError).
Arguments Normal {A} a.
Arguments Throw {A} e.

Record Outcome (A : Type) := mkOutcome {
  completion : Completion A;
  after : World;
  emitted : list Effect;
}.
Arguments mkOutcome {A}.
Arguments completion {A}.
Arguments after {A}.
Arguments emitted {A}.

Definition M (A : Type) : Type := World -> Outcome A.

Definition ret {A : Type} (a : A) : M A :=
  fun w => mkOutcome (Normal a) w [].

Definition bind {A B : Type} (m : M A) (k : A -> M B) : M B :=
  fun w =>
    match m w with
    | mkOutcome (Normal a) w1 es1 =>
        match k a w1 with
        | mkOutcome c w2 es2 => mkOutcome c w2 (es1 ++ es2)
        end
    | mkOutcome (Throw e) w1 es1 => mkOutcome (Throw e) w1 es1
    end.

Notation "x <- c1 ;; c2" := (bind c1 (fun x => c2))
  (at level 100, c1 at next level, right associativity).
Notation "c1 ;; c2" := (bind c1 (fun _ => c2))
  (at level 100, right associativity).

Definition throw {A : Type} (e : JsError) : M A :=
  fun w => mkOutcome (Throw e) w [].

Definition getThis : M VscodeSelectBase :=
  fun w => mkOutcome (Normal (this w)) w [].

Definition modify (f : VscodeSelectBase -> VscodeSelectBase) : M unit :=
  fun w => mkOutcome (Normal tt) (mkWorld (f (this w)) (windowClickListeners w)) [].

Definition emit (e : Effect) : M unit :=
  fun w => mkOutcome (Normal tt) w [e].

Definition when (b : bool) (m : M unit) : M unit :=
  if b then m else ret tt.

(** Reading a property of [o]: a [TypeError] when [o] is [undefined]. *)
Definition prop {A B : Type} (o : option A) (f : A -> B) : M B :=
  match o with
  | Some a => ret (f a)
  | None => throw TypeError
  end.

(** [window.addEventListener('click', l)]: the DOM ignores a listener that
    is already registered for the same type and phase. *)
Definition addEventListener (l : Listener) : M unit :=
  fun w =>
    let ls := windowClickListeners w in
    mkOutcome (Normal tt)
      (mkWorld (this w) (if existsb (Listener_eqb l) ls then ls else ls ++ [l]))
      [AddEventListener l].

(** [window.removeEventListener('click', l)]. *)
Definition removeEventListener (l : Listener) : M unit :=
  fun w =>
    mkOutcome (Normal tt)
      (mkWorld (this w)
         (List.filter (fun l' => negb (Listener_eqb l l')) (windowClickListeners w)))
      [RemoveEventListener l].

(** ** Property accessors of the class *)

Definition validValues : list SearchMethod :=
  ["contains"; "fuzzy"; "startsWith"; "startsWithPerTerm"].

Definition dquote : string := String (ascii_of_nat 34) EmptyString.

Definition quoted (s : string) : string :=
  String.append dquote (String.append s dquote).

(** The text passed to [console.warn] by the [filter] setter. *)
Definition invalid_filter_message (val : string) : string :=
  String.concat EmptyString
    ["[VSCode Webview Elements] Invalid filter: "; quoted val;
     ", fallback to default. Valid values are: "; quoted "contains"; ", ";
     quoted "fuzzy"; ", "; quoted "startsWith"; ", ";
     quoted "startsWithPerm"; "."].

(** [set filter(val: string)]. *)
Definition filter_set (val : string) : M unit :=
  if includes validValues val then
    modify (set_filter val)
  else
    modify (set_filter "fuzzy") ;;
    emit (ConsoleWarn (invalid_filter_message val)).

(** [get filter()]. *)
Definition filter_get (s : VscodeSelectBase) : string := _filter s.

(** [set options(opts)]: [opts.map((op, index) => ({...op, index}))]. *)
Definition options_set (opts : list Option) : M unit :=
  modify (set_options (imap (fun i o => mkInternalOption o (Z.of_nat i)) opts)).

(** [get options()]. *)
Definition options_get (s : VscodeSelectBase) : list Option :=
  map op (_options s).

(** ** Option ingestion *)

(** One round of the [nodes.forEach] callback, on the three locals it
    updates: [options], [currentIndex] and [optionsListStat]. *)
Definition ingest_node
    (acc : list InternalOption * Z * OptionListStat) (el : SlotNode)
    : list InternalOption * Z * OptionListStat :=
  let '(options, currentIndex, stat) := acc in
  if negb ((nodeType el =? ELEMENT_NODE) && matches_vscode_option el) then acc
  else
    let value' := if hasAttribute_value el then node_value el else innerText el in
    let o :=
      mkInternalOption
        (mkOption (innerText el) value' (Some (node_description el))
           (node_selected el))
        currentIndex in
    let options' := options ++ [o] in
    (* currentIndex = options.push(op) *)
    let currentIndex' := Z.of_nat (length options') in
    let stat' :=
      if node_selected el then
        mkStat (selectedIndexes stat ++ [Z.of_nat (length options') - 1])
               (values stat ++ [value'])
      else stat in
    (options', currentIndex', stat').

Definition ingest (nodes : list SlotNode)
    : list InternalOption * Z * OptionListStat :=
  fold_left ingest_node nodes ([], 0, mkStat [] []).

Definition _addOptionsFromSlottedElements (nodes : list SlotNode)
    : M OptionListStat :=
  let '(options, _, stat) := ingest nodes in
  modify (set_options options) ;;
  ret stat.

(** ** Dropdown, change event, mouse *)

Definition _toggleDropdown (visible : bool) : M unit :=
  modify (set_showDropdown visible) ;;
  modify (set_ariaExpanded (String_of_bool visible)) ;;
  s <- getThis ;;
  when (visible && negb (_multiple s))
    (modify (set_activeIndex (_selectedIndex s))) ;;
  if visible then addEventListener OnClickOutsideBound
  else removeEventListener OnClickOutsideBound.

Definition _dispatchChangeEvent : M unit :=
  s <- getThis ;;
  if negb (_multiple s) then
    emit (DispatchChange (SingleDetail (_selectedIndex s) (_value s)))
  else
    emit (DispatchChange (MultiDetail (_selectedIndexes s) (_values s))).

Definition _onFaceClick : M unit :=
  s <- getThis ;;
  _toggleDropdown (negb (_showDropdown s)) ;;
  when (_multiple s) (modify (set_activeIndex (-1))).

(** An entry of [event.composedPath()]. *)
Inductive EventTarget :=
| ThisElement
| OtherTarget (id : nat).

Definition is_this (et : EventTarget) : bool :=
  match et with ThisElement => true | OtherTarget _ => false end.

Fixpoint findIndex_from {A : Type} (p : A -> bool) (l : list A) (i : Z) : Z :=
  match l with
  | [] => -1
  | x :: l' => if p x then i else findIndex_from p l' (i + 1)
  end.

(** [arr.findIndex(p)]. *)
Definition findIndex {A : Type} (p : A -> bool) (l : list A) : Z :=
  findIndex_from p l 0.

Definition _onClickOutside (path : list EventTarget) : M unit :=
  let found := findIndex is_this path in
  when (found =? -1)
    (_toggleDropdown false ;;
     removeEventListener OnClickOutsideBound).

Definition _toggleComboboxDropdown : M unit :=
  modify (set_filterPattern EmptyString) ;;
  s <- getThis ;;
  _toggleDropdown (negb (_showDropdown s)) ;;
  when (_multiple s) (modify (set_activeIndex (-1))).

Definition _onComboboxButtonClick : M unit := _toggleComboboxDropdown.

Definition _onComboboxButtonKeyDown (key : string) : M unit :=
  when (String.eqb key "Enter") _toggleComboboxDropdown.

(** [_onOptionMouseOver]: [matchesOption] is [el.matches('.option')] and
    [dataIndex] is [Number(el.dataset.index)] of the event target. *)
Definition _onOptionMouseOver (matchesOption : bool) (dataIndex : Z) : M unit :=
  if negb matchesOption then ret tt
  else modify (set_activeIndex dataIndex).

(** ** Keyboard *)

Definition _onEnterKeyDown : M unit :=
  s <- getThis ;;
  let visible := negb (_showDropdown s) in
  _toggleDropdown visible ;;
  s <- getThis ;;
  when (negb (_multiple s) && negb visible
        && negb (_selectedIndex s =? _activeIndex s))
    (modify (set_selectedIndex (_activeIndex s)) ;;
     s <- getThis ;;
     v <- prop (js_index (_options s) (_selectedIndex s)) (fun o => value (op o)) ;;
     modify (set_value v) ;;
     _dispatchChangeEvent) ;;
  s <- getThis ;;
  when (_multiple s && visible) (modify (set_activeIndex 0)).

(** The [forEach] of [_onSpaceKeyDown]: push the [index] of every option
    whose [selected] is true. *)
Definition push_selected (acc : list Z) (o : InternalOption) : list Z :=
  if selected (op o) then acc ++ [index o] else acc.

Definition _onSpaceKeyDown : M unit :=
  s <- getThis ;;
  if negb (_showDropdown s) then
    _toggleDropdown true
  else
    when (_showDropdown s && _multiple s && (-1 <? _activeIndex s))
      (sel <- prop (js_index (_options s) (_activeIndex s))
                (fun o => selected (op o)) ;;
       modify (fun s =>
         set_options
           (alter (set_selected (negb sel)) (Z.to_nat (_activeIndex s)) (_options s))
           s) ;;
       modify (set_selectedIndexes []) ;;
       modify (fun s =>
         set_selectedIndexes
           (fold_left push_selected (_options s) (_selectedIndexes s)) s)).

Definition _onArrowUpKeyDown : M unit :=
  s <- getThis ;;
  when (_showDropdown s)
    (if _activeIndex s <=? 0 then ret tt
     else modify (set_activeIndex (_activeIndex s - 1))).

Definition _onArrowDownKeyDown : M unit :=
  s <- getThis ;;
  when (_showDropdown s)
    (if _activeIndex s >=? Z.of_nat (length (_options s)) - 1 then ret tt
     else modify (set_activeIndex (_activeIndex s + 1))).

Definition _onComponentKeyDown (key : string) : M unit :=
  when (includes [" "; "ArrowUp"; "ArrowDown"; "Escape"] key)
    (emit StopPropagation ;; emit PreventDefault) ;;
  when (String.eqb key "Enter") _onEnterKeyDown ;;
  when (String.eqb key " ") _onSpaceKeyDown ;;
  when (String.eqb key "Escape") (modify (set_showDropdown false)) ;;
  when (String.eqb key "ArrowUp") _onArrowUpKeyDown ;;
  when (String.eqb key "ArrowDown") _onArrowDownKeyDown.

Definition _onComponentFocus : M unit := modify (set_focused true).
Definition _onComponentBlur : M unit := modify (set_focused false).

Definition _onSlotChange (nodes : list SlotNode) : M unit :=
  stat <- _addOptionsFromSlottedElements nodes ;;
  when (Z.of_nat (length (selectedIndexes stat)) >? 0)
    (modify (set_selectedIndex (nth 0 (selectedIndexes stat) 0)) ;;
     modify (set_selectedIndexes (selectedIndexes stat))).

Definition _onComboboxInputInput (v : string) : M unit :=
  modify (set_filterPattern v) ;;
  _toggleDropdown true.

(** ** Events reaching the widget *)

Inductive Event :=
| FaceClick
| WindowClick (path : list EventTarget)
| KeyDown (key : string)
| OptionMouseOver (matchesOption : bool) (dataIndex : Z)
| SlotChange (nodes : list SlotNode)
| SetFilter (val : string)
| SetOptions (opts : list Option)
| ComboboxButtonClick
| ComboboxButtonKeyDown (key : string)
| ComboboxInputInput (v : string)
| Focus
| Blur.

(** The handler that the browser runs for an event.  A click reaching
    [window] runs [_onClickOutside] only while it is registered there. *)
Definition handler (ev : Event) : M unit :=
  match ev with
  | FaceClick => _onFaceClick
  | WindowClick path =>
      fun w =>
        when (existsb (Listener_eqb OnClickOutsideBound) (windowClickListeners w))
          (_onClickOutside path) w
  | KeyDown key => _onComponentKeyDown key
  | OptionMouseOver m i => _onOptionMouseOver m i
  | SlotChange nodes => _onSlotChange nodes
  | SetFilter val => filter_set val
  | SetOptions opts => options_set opts
  | ComboboxButtonClick => _onComboboxButtonClick
  | ComboboxButtonKeyDown key => _onComboboxButtonKeyDown key
  | ComboboxInputInput v => _onComboboxInputInput v
  | Focus => _onComponentFocus
  | Blur => _onComponentBlur
  end.

(** A sequence of events, each handled to completion; an exception ends
    the handler that raised it and leaves the widget as mutated so far. *)
Fixpoint run (evs : list Event) (w : World) : World * list Effect :=
  match evs with
  | [] => (w, [])
  | ev :: evs' =>
      let r := handler ev w in
      let '(w', es) := run evs' (after r) in
      (w', emitted r ++ es)
  end.

(** The widget as constructed (field initialisers of the class);
    [_multiple] is [false] in the base class and set by the multi-select
    subclass. *)
Definition initial (multiple : bool) : World :=
  mkWorld
    (mkSelect "false" false false (-1) "fuzzy" EmptyString (-1) [] false []
       EmptyString [] multiple)
    [].

(** The [vsc-change] payloads among a list of effects. *)
Definition notifications (es : list Effect) : list ChangeDetail :=
  flat_map (fun e => match e with DispatchChange d => [d] | _ => [] end) es.

Definition count_add (es : list Effect) : nat :=
  length (List.filter (fun e => match e with AddEventListener _ => true | _ => false end) es).

Definition count_remove (es : list Effect) : nat :=
  length (List.filter (fun e => match e with RemoveEventListener _ => true | _ => false end) es).

(** * Vocabulary of the properties *)

(** The committed selection is the same in [s] and [s']. *)
Definition same_selection (s s' : VscodeSelectBase) : Prop :=
  _selectedIndex s' = _selectedIndex s /\
  _selectedIndexes s' = _selectedIndexes s /\
  _value s' = _value s /\
  _values s' = _values s.

(** The listener is registered exactly while the dropdown is shown. *)
Definition paired (w : World) : Prop :=
  windowClickListeners w
    = if _showDropdown (this w) then [OnClickOutsideBound] else [].



(** The [index] field of every option record is its position. *)
Definition indexed (opts : list InternalOption) : Prop :=
  forall (k : nat) (o : InternalOption), opts !! k = Some o -> index o = Z.of_nat k.

(** A slotted node that ingestion keeps. *)
Definition is_option_node (el : SlotNode) : bool :=
  (nodeType el =? ELEMENT_NODE) && matches_vscode_option el.

(** The kept nodes that carry [selected]. *)
Definition preselected (nodes : list SlotNode) : list SlotNode :=
  List.filter (fun el => is_option_node el && node_selected el) nodes.

(** What the [forEach] of ingestion maintains on its three locals. *)
Definition ingest_inv (acc : list InternalOption * Z * OptionListStat) : Prop :=
  let '(opts, cur, stat) := acc in
  cur = Z.of_nat (length opts) /\
  indexed opts /\
  selectedIndexes stat
    = map index (List.filter (fun o => selected (op o)) opts).

(** Option records whose [index] fields count up from [b]. *)
Definition indexed_from (b : Z) (opts : list InternalOption) : Prop :=
  forall (k : nat) (o : InternalOption),
    opts !! k = Some o -> index o = b + Z.of_nat k.

(** ** Example widgets *)

(** The three options of the specification's single-select scenario. *)
Definition abc : list Option :=
  [mkOption "A" "a" None false; mkOption "B" "b" None false;
   mkOption "C" "c" None false].

(** The single-select widget holding [abc], opened by a click on its face. *)
Definition abc_open : World :=
  fst (run [SetOptions abc; FaceClick] (initial false)).

(** [abc_open] after two presses of ArrowDown: Active Index 1, no
    selection yet. *)
Definition abc_navigated : World :=
  fst (run [KeyDown "ArrowDown"; KeyDown "ArrowDown"] abc_open).

(** A closed multi-select widget whose Active Index is still 2 from an
    earlier visit of the list. *)
Definition multi_closed : World :=
  fst (run [SetOptions abc; FaceClick; KeyDown "ArrowDown"; KeyDown "ArrowDown";
            KeyDown "ArrowDown"; KeyDown "Enter"] (initial true)).

(** An open multi-select widget holding [abc] with Active Index 0. *)
Definition multi_open : World :=
  fst (run [SetOptions abc; FaceClick; KeyDown "ArrowDown"] (initial true)).

(** A [<vscode-option>] child without [value] attribute and not selected. *)
Definition node (text : string) : SlotNode :=
  mkNode ELEMENT_NODE true text false EmptyString EmptyString false.

(** The same child carrying [selected]. *)
Definition selected_node (text : string) : SlotNode :=
  mkNode ELEMENT_NODE true text false EmptyString EmptyString true.

(** A single-select widget opened without selection whose slot then gets a
    pre-selected child: Active Index -1, selected index 1. *)
Definition late_preselection : World :=
  fst (run [SlotChange [node "A"; node "B"]; FaceClick;
            SlotChange [node "A"; selected_node "B"]] (initial false)).


(** ** The rest of the class *)

(** [get _filteredOptions()].  [./helpers] is not among the sources: its
    [filterOptionsByPattern] is the parameter [filterOptionsByPattern]. *)
Definition _filteredOptions
    (filterOptionsByPattern :
       list InternalOption -> string -> SearchMethod -> list InternalOption)
    (s : VscodeSelectBase) : list InternalOption :=
  if negb (combobox s) || String.eqb (_filterPattern s) EmptyString then
    _options s
  else
    filterOptionsByPattern (_options s) (_filterPattern s) (_filter s).

(** ** Vocabulary of the further properties *)

(** The value that ingestion gives a kept node: the [value] attribute when
    present, the text otherwise. *)
Definition effective_value (el : SlotNode) : string :=
  if hasAttribute_value el then node_value el else innerText el.

(** The option record of the kept node at position [i]. *)
Definition option_of_node (i : nat) (el : SlotNode) : InternalOption :=
  mkInternalOption
    (mkOption (innerText el) (effective_value el) (Some (node_description el))
       (node_selected el))
    (Z.of_nat i).

(** [aria-expanded] spells the visibility of the dropdown. *)
Definition aria_synced (w : World) : Prop :=
  ariaExpanded (this w) = String_of_bool (_showDropdown (this w)).

(** Every handler of the run returns normally. *)
Fixpoint completes (evs : list Event) (w : World) : bool :=
  match evs with
  | [] => true
  | ev :: evs' =>
      match completion (handler ev w) with
      | Normal _ => completes evs' (after (handler ev w))
      | Throw _ => false
      end
  end.

(** Events that leave the option list alone; a hover names one of the [n]
    rendered options. *)
Definition interaction (n : Z) (ev : Event) : Prop :=
  match ev with
  | SlotChange _ | SetOptions _ => False
  | OptionMouseOver _ i => 0 <= i < n
  | _ => True
  end.

(** The indexes of a widget in use: the Active Index is -1 or names an
    option; a multi-select widget has at least one option; in single-select
    mode the selected index is -1 or names an option, and an open dropdown
    without Active Index has no selection. *)
Definition navigable (w : World) : Prop :=
  let s := this w in
  let n := Z.of_nat (length (_options s)) in
  -1 <= _activeIndex s <= n - 1 /\
  (_multiple s = true -> 1 <= n) /\
  (_multiple s = false ->
   -1 <= _selectedIndex s <= n - 1 /\
   (_showDropdown s = true -> _activeIndex s = -1 -> _selectedIndex s = -1)).

(** The number of Enter key presses among the events. *)
Definition count_enter (evs : list Event) : nat :=
  length
    (List.filter
       (fun ev => match ev with
                  | KeyDown key => String.eqb key "Enter"
                  | _ => false
                  end) evs).

(** * Properties *)

(** ** Proof tools *)

(** Name the fields of a widget state so that handlers evaluate on it. *)
Ltac open_world w :=
  let ae := fresh "ae" in let cb := fresh "cb" in let fo := fresh "fo" in
  let ai := fresh "ai" in let fi := fresh "fi" in let fp := fresh "fp" in
  let si := fresh "si" in let sis := fresh "sis" in let sd := fresh "sd" in
  let os := fresh "os" in let v := fresh "v" in let vs := fresh "vs" in
  let mu := fresh "mu" in let ls := fresh "ls" in
  destruct w as [[ae cb fo ai fi fp si sis sd os v vs mu] ls];
  cbn [this windowClickListeners ariaExpanded combobox focused _activeIndex
       _filter _filterPattern _selectedIndex _selectedIndexes _showDropdown
       _options _value _values _multiple
       set_ariaExpanded set_focused set_activeIndex set_filter
       set_filterPattern set_selectedIndex set_selectedIndexes
       set_showDropdown set_options set_value] in *.

(** Evaluate a handler on a state: unfold the methods, the monad and the
    record accessors, and decide the tests on key names; arithmetic and
    list functions stay folded. *)
Ltac eval_handler :=
  cbv beta iota zeta delta
    [handler _onComponentKeyDown _onEnterKeyDown _onSpaceKeyDown
     _onArrowUpKeyDown _onArrowDownKeyDown _onFaceClick _onClickOutside
     _toggleDropdown _dispatchChangeEvent _toggleComboboxDropdown
     _onComboboxButtonClick _onComboboxButtonKeyDown _onOptionMouseOver
     _onComponentFocus _onComponentBlur _onSlotChange _onComboboxInputInput
     _addOptionsFromSlottedElements filter_set options_set
     addEventListener removeEventListener
     bind ret throw getThis modify emit when prop
     includes existsb String.eqb Ascii.eqb Bool.eqb andb orb negb
     String_of_bool Listener_eqb app
     completion after emitted this windowClickListeners
     ariaExpanded combobox focused _activeIndex _filter _filterPattern
     _selectedIndex _selectedIndexes _showDropdown _options _value _values
     _multiple
     set_ariaExpanded set_focused set_activeIndex set_filter
     set_filterPattern set_selectedIndex set_selectedIndexes
     set_showDropdown set_options set_value].

(** Split on the first test that blocks the evaluation of a handler. *)
Ltac case_test :=
  match goal with
  | |- context [Z.eqb ?a ?b] => destruct (Z.eqb_spec a b)
  | |- context [Z.ltb ?a ?b] => destruct (Z.ltb_spec a b)
  | |- context [Z.leb ?a ?b] => destruct (Z.leb_spec a b)
  | |- context [Z.geb ?a ?b] => destruct (Z.geb_spec a b)
  | |- context [Z.gtb ?a ?b] => destruct (Z.gtb_spec a b)
  | |- context [js_index ?l ?i] => destruct (js_index l i) eqn:?
  | |- context [if ?b then _ else _] => is_var b; destruct b
  | |- context [match ?b with true => _ | false => _ end _] => is_var b; destruct b
  end.

Ltac cases_handler := eval_handler; repeat (case_test; eval_handler).

(** Use the pairing of listener and visibility to make both concrete. *)
Ltac use_paired H :=
  unfold paired in H |- *;
  cbn [this windowClickListeners _showDropdown] in H;
  match type of H with
  | _ = if ?sd then _ else _ => destruct sd
  end; subst.

Lemma includes_In (l : list string) (x : string) :
  includes l x = true <-> In x l.
Proof.
  unfold includes. rewrite existsb_exists. split.
  - intros [y [Hy Heq]]. apply String.eqb_eq in Heq. now subst.
  - intros H. exists x. split; [exact H | apply String.eqb_refl].
Qed.

(** ** The [filter] property *)

(** C8: assigning a string that is not one of the four search methods does
    not throw, makes [fuzzy] the effective method and emits exactly one
    console warning; assigning a valid method makes it the effective method
    and emits nothing. *)
Theorem C8_filter_setter (val : string) (w : World) :
  let r := filter_set val w in
  completion r = Normal tt /\
  (In val validValues ->
     filter_get (this (after r)) = val /\ emitted r = []) /\
  (~ In val validValues ->
     filter_get (this (after r)) = "fuzzy" /\
     emitted r = [ConsoleWarn (invalid_filter_message val)]).
Proof.
  unfold filter_set.
  destruct (includes validValues val) eqn:E.
  - apply includes_In in E. repeat split; try reflexivity; tauto.
  - assert (~ In val validValues) as N.
    { intros H. apply includes_In in H. congruence. }
    repeat split; try reflexivity; tauto.
Qed.

Lemma C8_filter_setter_witness :
  (filter_get (this (after (filter_set "startsWith" (initial false)))) = "startsWith" /\
   emitted (filter_set "startsWith" (initial false)) = []) /\
  (filter_get (this (after (filter_set "bogus" (initial false)))) = "fuzzy" /\
   emitted (filter_set "bogus" (initial false))
     = [ConsoleWarn (invalid_filter_message "bogus")]).
Proof.
  split.
  - apply (proj1 (proj2 (C8_filter_setter "startsWith" (initial false)))).
    simpl. tauto.
  - apply (proj2 (proj2 (C8_filter_setter "bogus" (initial false)))).
    simpl. intros H. repeat destruct H as [H | H]; try discriminate H. exact H.
Defined.

(** ** Arrow keys *)

(** What ArrowDown does to the whole state of an open dropdown. *)
Lemma arrow_down_open (w : World) :
  _showDropdown (this w) = true ->
  let a := _activeIndex (this w) in
  let n := Z.of_nat (length (_options (this w))) in
  handler (KeyDown "ArrowDown") w =
    mkOutcome (Normal tt)
      (mkWorld (set_activeIndex (if a <? n - 1 then a + 1 else a) (this w))
         (windowClickListeners w))
      [StopPropagation; PreventDefault].
Proof.
  open_world w. intros ->. eval_handler.
  destruct (Z.ltb_spec ai (Z.of_nat (length os) - 1));
    destruct (Z.geb_spec ai (Z.of_nat (length os) - 1)); try lia; reflexivity.
Qed.

(** What ArrowUp does to the whole state of an open dropdown. *)
Lemma arrow_up_open (w : World) :
  _showDropdown (this w) = true ->
  let a := _activeIndex (this w) in
  handler (KeyDown "ArrowUp") w =
    mkOutcome (Normal tt)
      (mkWorld (set_activeIndex (if 0 <? a then a - 1 else a) (this w))
         (windowClickListeners w))
      [StopPropagation; PreventDefault].
Proof.
  open_world w. intros ->. eval_handler.
  destruct (Z.ltb_spec 0 ai); destruct (Z.leb_spec ai 0); try lia; reflexivity.
Qed.

(** Pressing ArrowDown [k] times on an open dropdown whose Active Index is
    at most [n - 1] keeps it open, keeps the options, and keeps the bound. *)
Lemma arrow_down_repeat (k : nat) : forall (w : World),
  _showDropdown (this w) = true ->
  _activeIndex (this w) <= Z.of_nat (length (_options (this w))) - 1 ->
  let w' := fst (run (repeat (KeyDown "ArrowDown") k) w) in
  _showDropdown (this w') = true /\
  _options (this w') = _options (this w) /\
  _activeIndex (this w') <= Z.of_nat (length (_options (this w))) - 1.
Proof.
  induction k as [|k IH]; intros w Hopen Hle.
  - cbn. auto.
  - cbn [repeat run].
    rewrite (arrow_down_open w Hopen). cbn [after emitted].
    set (w1 := mkWorld _ _).
    assert (Hopen1 : _showDropdown (this w1) = true) by (subst w1; open_world w; exact Hopen).
    assert (Hopts : _options (this w1) = _options (this w)) by (subst w1; open_world w; reflexivity).
    assert (Hle1 : _activeIndex (this w1) <= Z.of_nat (length (_options (this w1))) - 1).
    { rewrite Hopts. subst w1. open_world w.
      destruct (Z.ltb_spec ai (Z.of_nat (length os) - 1)); lia. }
    specialize (IH w1 Hopen1 Hle1).
    destruct (run (repeat (KeyDown "ArrowDown") k) w1) as [w2 es] eqn:E.
    cbn [fst] in *. rewrite Hopts in IH. exact IH.
Qed.

(** C7: on an open dropdown over [n] options, ArrowDown adds 1 to the
    Active Index exactly when it is strictly below [n - 1] and ArrowUp
    subtracts 1 exactly when it is strictly above 0, otherwise the index is
    left alone (no wraparound); starting from -1, no number of ArrowDown
    presses (in particular [n] of them) takes it past [n - 1]. *)
Theorem C7_arrow_keys_clamped (w : World) :
  _showDropdown (this w) = true ->
  let a := _activeIndex (this w) in
  let n := Z.of_nat (length (_options (this w))) in
  _activeIndex (this (after (handler (KeyDown "ArrowDown") w)))
    = (if a <? n - 1 then a + 1 else a) /\
  _activeIndex (this (after (handler (KeyDown "ArrowUp") w)))
    = (if 0 <? a then a - 1 else a) /\
  (a = -1 ->
   forall k : nat,
     _activeIndex (this (fst (run (repeat (KeyDown "ArrowDown") k) w))) <= n - 1).
Proof.
  intros Hopen a n. split; [|split].
  - rewrite (arrow_down_open w Hopen). open_world w. reflexivity.
  - rewrite (arrow_up_open w Hopen). open_world w. reflexivity.
  - intros Ha k. apply (arrow_down_repeat k w Hopen). subst a n. lia.
Qed.

Lemma C7_arrow_keys_clamped_witness :
  _activeIndex (this (after (handler (KeyDown "ArrowDown") abc_open))) = 0 /\
  _activeIndex (this (after (handler (KeyDown "ArrowUp") abc_open))) = -1 /\
  _activeIndex (this (fst (run (repeat (KeyDown "ArrowDown") 3) abc_open))) <= 2.
Proof.
  destruct (C7_arrow_keys_clamped abc_open eq_refl) as [Hd [Hu Hn]].
  split; [exact Hd | split; [exact Hu | exact (Hn eq_refl 3%nat)]].
Defined.

(** ** Enter *)

(** Enter on an open single-select dropdown whose Active Index refers to no
    option record: the dropdown has been closed and the selected index
    overwritten when reading [.value] of [undefined] raises a [TypeError];
    nothing is dispatched. *)
Lemma enter_single_open_no_option (w : World) :
  _multiple (this w) = false ->
  _showDropdown (this w) = true ->
  _activeIndex (this w) <> _selectedIndex (this w) ->
  js_index (_options (this w)) (_activeIndex (this w)) = None ->
  let r := handler (KeyDown "Enter") w in
  completion r = Throw TypeError /\
  _showDropdown (this (after r)) = false /\
  notifications (emitted r) = [].
Proof.
  open_world w. intros -> -> Hne Hnone. eval_handler.
  destruct (Z.eqb_spec si ai) as [->|_]; [congruence|].
  rewrite Hnone. repeat split.
Qed.




(** ** The key dispatcher *)

(** A key is one of the five that [_onComponentKeyDown] tests for, or the
    handler does nothing at all. *)
Lemma keydown_cases (key : string) :
  key = "Enter" \/ key = " " \/ key = "Escape" \/ key = "ArrowUp" \/
  key = "ArrowDown" \/
  (forall w : World, handler (KeyDown key) w = mkOutcome (Normal tt) w []).
Proof.
  destruct (String.eqb_spec key "Enter") as [|HE]; [tauto|].
  destruct (String.eqb_spec key " ") as [|HS]; [tauto|].
  destruct (String.eqb_spec key "Escape") as [|HX]; [tauto|].
  destruct (String.eqb_spec key "ArrowUp") as [|HU]; [tauto|].
  destruct (String.eqb_spec key "ArrowDown") as [|HD]; [tauto|].
  do 5 right. intros w.
  apply String.eqb_neq in HE, HS, HX, HU, HD.
  unfold handler, _onComponentKeyDown, includes. cbn [existsb].
  rewrite HE, HS, HX, HU, HD. destruct w as [s ls]. reflexivity.
Qed.

(** C4 (as the code has it): for the keys Space, ArrowUp, ArrowDown and
    Escape the key handler first calls [stopPropagation] and then
    [preventDefault] on the event, in every state and whatever the rest of
    the handler does; for Enter it calls neither. *)
Theorem C4_stop_and_prevent_four_keys (w : World) :
  (forall key : string,
     In key [" "; "ArrowUp"; "ArrowDown"; "Escape"] ->
     exists rest : list Effect,
       emitted (handler (KeyDown key) w)
         = StopPropagation :: PreventDefault :: rest) /\
  ~ In StopPropagation (emitted (handler (KeyDown "Enter") w)) /\
  ~ In PreventDefault (emitted (handler (KeyDown "Enter") w)).
Proof.
  split.
  - intros key [<-|[<-|[<-|[<-|[]]]]]; open_world w; cases_handler;
      eexists; reflexivity.
  - open_world w; cases_handler; split; intros H;
      repeat (destruct H as [H|H]; [discriminate H|]); destruct H.
Qed.

Lemma C4_stop_and_prevent_four_keys_witness :
  exists rest : list Effect,
    emitted (handler (KeyDown "Escape") abc_open)
      = StopPropagation :: PreventDefault :: rest.
Proof.
  apply (proj1 (C4_stop_and_prevent_four_keys abc_open) "Escape").
  simpl. tauto.
Defined.

(** C4, the claim as stated fails: on a freshly constructed widget Enter
    opens the dropdown and neither [stopPropagation] nor [preventDefault]
    is among the effects of the handler. *)
Lemma C4_counterexample_enter :
  emitted (handler (KeyDown "Enter") (initial false))
    = [AddEventListener OnClickOutsideBound] /\
  ~ In StopPropagation (emitted (handler (KeyDown "Enter") (initial false))) /\
  ~ In PreventDefault (emitted (handler (KeyDown "Enter") (initial false))).
Proof.
  split; [reflexivity|].
  split; intros [H|[]]; discriminate H.
Qed.

(** ** Space *)

(** C9 (as the code has it): in single-select mode Space on an open
    dropdown is not a close trigger: apart from the two calls on the event,
    the handler returns with the dropdown open and the whole state as it
    was. *)
Theorem C9_space_single_open_noop (w : World) :
  _multiple (this w) = false ->
  _showDropdown (this w) = true ->
  handler (KeyDown " ") w
    = mkOutcome (Normal tt) w [StopPropagation; PreventDefault] /\
  _showDropdown (this (after (handler (KeyDown " ") w))) = true.
Proof.
  open_world w. intros -> ->. eval_handler. split; reflexivity.
Qed.

Lemma C9_space_single_open_noop_witness :
  handler (KeyDown " ") abc_open
    = mkOutcome (Normal tt) abc_open [StopPropagation; PreventDefault] /\
  _showDropdown (this (after (handler (KeyDown " ") abc_open))) = true.
Proof.
  apply (C9_space_single_open_noop abc_open); reflexivity.
Defined.

(** C9, the claim as stated fails: the single-select widget holding A, B, C
    is open, Space is pressed, and the dropdown is still open. *)
Lemma C9_counterexample_space_stays_open :
  _multiple (this abc_open) = false /\
  _showDropdown (this abc_open) = true /\
  _showDropdown (this (after (handler (KeyDown " ") abc_open))) = true /\
  _showDropdown (this (after (handler (KeyDown " ") abc_open))) <> false.
Proof. repeat split. discriminate. Qed.

(** ** Opening the dropdown *)

(** Space on a closed multi-select dropdown opens it and leaves the Active
    Index where it was. *)
Lemma space_opens_multi_keeps_active (w : World) :
  _showDropdown (this w) = false ->
  _multiple (this w) = true ->
  _showDropdown (this (after (handler (KeyDown " ") w))) = true /\
  _activeIndex (this (after (handler (KeyDown " ") w))) = _activeIndex (this w).
Proof.
  open_world w. intros -> ->. eval_handler. split; reflexivity.
Qed.

(** C5 (as the code has it): from the closed state, a face click, Enter and
    Space each open the dropdown.  In single-select mode each of the three
    sets the Active Index to the current selected index.  In multi-select
    mode a face click resets the Active Index to -1 and Enter sets it
    to 0. *)
Theorem C5_active_index_on_open (w : World) :
  _showDropdown (this w) = false ->
  (forall ev : Event,
     In ev [FaceClick; KeyDown "Enter"; KeyDown " "] ->
     completion (handler ev w) = Normal tt /\
     _showDropdown (this (after (handler ev w))) = true /\
     (_multiple (this w) = false ->
      _activeIndex (this (after (handler ev w))) = _selectedIndex (this w))) /\
  (_multiple (this w) = true ->
   _activeIndex (this (after (handler FaceClick w))) = -1 /\
   _activeIndex (this (after (handler (KeyDown "Enter") w))) = 0).
Proof.
  open_world w. intros ->. split.
  - intros ev [<-|[<-|[<-|[]]]]; eval_handler; destruct mu; eval_handler;
      repeat split; intros; congruence.
  - intros ->. eval_handler. split; reflexivity.
Qed.

Lemma C5_active_index_on_open_witness :
  (_showDropdown (this (after (handler (KeyDown " ") (initial false)))) = true /\
   _activeIndex (this (after (handler (KeyDown " ") (initial false)))) = -1) /\
  (_activeIndex (this (after (handler FaceClick multi_closed))) = -1 /\
   _activeIndex (this (after (handler (KeyDown "Enter") multi_closed))) = 0).
Proof.
  split.
  - destruct (proj1 (C5_active_index_on_open (initial false) eq_refl)
                (KeyDown " ")) as [_ [Ho Ha]].
    + simpl. tauto.
    + split; [exact Ho | exact (Ha eq_refl)].
  - exact (proj2 (C5_active_index_on_open multi_closed eq_refl) eq_refl).
Defined.

(** C5, the claim as stated fails in multi-select mode: Enter on the closed
    widget opens it with Active Index 0, and Space opens it with the Active
    Index still 2; neither is -1. *)
Lemma C5_counterexample_multi :
  _multiple (this multi_closed) = true /\
  _showDropdown (this multi_closed) = false /\
  (_showDropdown (this (after (handler (KeyDown "Enter") multi_closed))) = true /\
   _activeIndex (this (after (handler (KeyDown "Enter") multi_closed))) = 0 /\
   _activeIndex (this (after (handler (KeyDown "Enter") multi_closed))) <> -1) /\
  (_showDropdown (this (after (handler (KeyDown " ") multi_closed))) = true /\
   _activeIndex (this (after (handler (KeyDown " ") multi_closed))) = 2 /\
   _activeIndex (this (after (handler (KeyDown " ") multi_closed))) <> -1).
Proof.
  repeat split; vm_compute; discriminate.
Qed.

(** ** Change notifications *)

Lemma listener_registered (ls : list Listener) :
  In OnClickOutsideBound ls ->
  existsb (Listener_eqb OnClickOutsideBound) ls = true.
Proof.
  intros H. apply existsb_exists. exists OnClickOutsideBound. split; [exact H | reflexivity].
Qed.

(** No handler other than the one for the Enter key dispatches anything. *)
Lemma only_enter_notifies (ev : Event) (w : World) :
  ev <> KeyDown "Enter" ->
  notifications (emitted (handler ev w)) = [].
Proof.
  intros Hev. destruct ev as [|path|key|m i|nodes|val|opts| |key|v| |].
  - open_world w. cases_handler; reflexivity.
  - open_world w. unfold handler. cbn [windowClickListeners].
    destruct (existsb (Listener_eqb OnClickOutsideBound) ls);
      cases_handler; reflexivity.
  - destruct (keydown_cases key) as [->|[->|[->|[->|[->|Hnone]]]]].
    + congruence.
    + open_world w. cases_handler; reflexivity.
    + open_world w. cases_handler; reflexivity.
    + open_world w. cases_handler; reflexivity.
    + open_world w. cases_handler; reflexivity.
    + rewrite Hnone. reflexivity.
  - open_world w. destruct m; cases_handler; reflexivity.
  - open_world w. eval_handler.
    destruct (ingest nodes) as [[opts cur] stat].
    cases_handler; reflexivity.
  - open_world w. unfold handler, filter_set.
    destruct (includes validValues val); reflexivity.
  - open_world w. reflexivity.
  - open_world w. cases_handler; reflexivity.
  - open_world w. unfold handler, _onComboboxButtonKeyDown.
    destruct (String.eqb key "Enter"); cases_handler; reflexivity.
  - open_world w. cases_handler; reflexivity.
  - reflexivity.
  - reflexivity.
Qed.

(** C6: a change notification is dispatched only by a commit.  No event
    other than the Enter key (arrow keys, mouse hover, face click, Space,
    Escape, clicks outside, ...) dispatches one; a notification dispatched
    by Enter comes from a single-select widget that was open with an Active
    Index different from its selected index, and reports the newly selected
    index and its option's value.  Enter on an open multi-select dropdown
    closes it with the selection as it was and nothing dispatched; Escape,
    and a click whose path does not contain the widget, close the dropdown
    with the selection as it was and nothing dispatched. *)
Theorem C6_change_only_on_commit (w : World) :
  (forall ev : Event,
     ev <> KeyDown "Enter" -> notifications (emitted (handler ev w)) = []) /\
  (forall d : ChangeDetail,
     In d (notifications (emitted (handler (KeyDown "Enter") w))) ->
     _multiple (this w) = false /\
     _showDropdown (this w) = true /\
     _activeIndex (this w) <> _selectedIndex (this w) /\
     _selectedIndex (this (after (handler (KeyDown "Enter") w)))
       = _activeIndex (this w) /\
     exists o : InternalOption,
       js_index (_options (this w)) (_activeIndex (this w)) = Some o /\
       d = SingleDetail (_activeIndex (this w)) (value (op o))) /\
  (_multiple (this w) = true ->
   _showDropdown (this w) = true ->
   completion (handler (KeyDown "Enter") w) = Normal tt /\
   _showDropdown (this (after (handler (KeyDown "Enter") w))) = false /\
   same_selection (this w) (this (after (handler (KeyDown "Enter") w))) /\
   notifications (emitted (handler (KeyDown "Enter") w)) = []) /\
  (completion (handler (KeyDown "Escape") w) = Normal tt /\
   _showDropdown (this (after (handler (KeyDown "Escape") w))) = false /\
   same_selection (this w) (this (after (handler (KeyDown "Escape") w))) /\
   notifications (emitted (handler (KeyDown "Escape") w)) = []) /\
  (forall path : list EventTarget,
     findIndex is_this path = -1 ->
     In OnClickOutsideBound (windowClickListeners w) ->
     completion (handler (WindowClick path) w) = Normal tt /\
     _showDropdown (this (after (handler (WindowClick path) w))) = false /\
     same_selection (this w) (this (after (handler (WindowClick path) w))) /\
     notifications (emitted (handler (WindowClick path) w)) = []).
Proof.
  split; [intros ev Hev; apply only_enter_notifies; exact Hev|].
  split; [|split; [|split]].
  - intros d. open_world w. cases_handler; cbn [notifications flat_map app In];
      try tauto; try congruence.
    intros [<-|[]]. repeat split; try congruence.
    eexists; split; [reflexivity | congruence].
  - open_world w. intros -> ->. eval_handler. unfold same_selection.
    repeat split.
  - open_world w. eval_handler. unfold same_selection. repeat split.
  - intros path Hout Hin. open_world w. unfold handler.
    cbn [windowClickListeners]. rewrite (listener_registered ls Hin).
    unfold when at 1. unfold _onClickOutside. rewrite Hout.
    eval_handler. unfold same_selection. repeat split.
Qed.

Lemma C6_change_only_on_commit_witness :
  notifications (emitted (handler (KeyDown "ArrowDown") abc_open)) = [] /\
  (_multiple (this abc_navigated) = false /\
   _showDropdown (this abc_navigated) = true) /\
  (_showDropdown (this (after (handler (KeyDown "Enter") multi_open))) = false /\
   notifications (emitted (handler (KeyDown "Enter") multi_open)) = []) /\
  (_showDropdown (this (after (handler (WindowClick [OtherTarget 0]) abc_open)))
     = false /\
   notifications (emitted (handler (WindowClick [OtherTarget 0]) abc_open)) = []).
Proof.
  split; [|split; [|split]].
  - apply (proj1 (C6_change_only_on_commit abc_open)). discriminate.
  - destruct (proj1 (proj2 (C6_change_only_on_commit abc_navigated))
                (SingleDetail 1 "b")) as [Hm [Ho _]].
    + simpl. left. reflexivity.
    + split; [exact Hm | exact Ho].
  - destruct (proj1 (proj2 (proj2 (C6_change_only_on_commit multi_open)))
                eq_refl eq_refl) as [_ [Hc [_ Hn]]].
    split; [exact Hc | exact Hn].
  - destruct (proj2 (proj2 (proj2 (proj2 (C6_change_only_on_commit abc_open))))
                [OtherTarget 0] eq_refl) as [_ [Hc [_ Hn]]].
    + simpl. left. reflexivity.
    + split; [exact Hc | exact Hn].
Defined.

(** ** The outside-click listener *)

Lemma paired_initial (multiple : bool) : paired (initial multiple).
Proof. reflexivity. Qed.

(** Every handler except the one for Escape keeps the listener paired with
    the visibility: they all go through [_toggleDropdown]. *)
Lemma paired_step (ev : Event) (w : World) :
  ev <> KeyDown "Escape" ->
  paired w -> paired (after (handler ev w)).
Proof.
  intros Hev H. destruct ev as [|path|key|m i|nodes|val|opts| |key|v| |].
  - open_world w. use_paired H; cases_handler; reflexivity.
  - open_world w. use_paired H; unfold handler; cbn [windowClickListeners existsb];
      cases_handler; reflexivity.
  - destruct (keydown_cases key) as [->|[->|[->|[->|[->|Hnone]]]]].
    + open_world w. use_paired H; cases_handler; reflexivity.
    + open_world w. use_paired H; cases_handler; reflexivity.
    + congruence.
    + open_world w. use_paired H; cases_handler; reflexivity.
    + open_world w. use_paired H; cases_handler; reflexivity.
    + rewrite Hnone. exact H.
  - open_world w. use_paired H; destruct m; cases_handler; reflexivity.
  - open_world w. use_paired H; eval_handler;
      destruct (ingest nodes) as [[opts cur] stat]; cases_handler; reflexivity.
  - open_world w. use_paired H; unfold handler, filter_set;
      destruct (includes validValues val); reflexivity.
  - open_world w. use_paired H; reflexivity.
  - open_world w. use_paired H; cases_handler; reflexivity.
  - open_world w. use_paired H; unfold handler, _onComboboxButtonKeyDown;
      destruct (String.eqb key "Enter"); cases_handler; reflexivity.
  - open_world w. use_paired H; cases_handler; reflexivity.
  - open_world w. use_paired H; reflexivity.
  - open_world w. use_paired H; reflexivity.
Qed.

(** Along any run without the Escape key, a closed dropdown has no listener
    left on [window] and an open one has exactly one. *)
Lemma paired_run (evs : list Event) : forall w : World,
  Forall (fun ev => ev <> KeyDown "Escape") evs ->
  paired w -> paired (fst (run evs w)).
Proof.
  induction evs as [|ev evs IH]; intros w Hall H.
  - exact H.
  - inversion Hall as [|? ? Hev Hrest]; subst. cbn [run].
    specialize (IH (after (handler ev w)) Hrest (paired_step ev w Hev H)).
    destruct (run evs (after (handler ev w))) as [w' es]. exact IH.
Qed.

Lemma count_add_app (es es' : list Effect) :
  count_add (es ++ es') = (count_add es + count_add es')%nat.
Proof. unfold count_add. now rewrite List.filter_app, length_app. Qed.

Lemma count_remove_app (es es' : list Effect) :
  count_remove (es ++ es') = (count_remove es + count_remove es')%nat.
Proof. unfold count_remove. now rewrite List.filter_app, length_app. Qed.

(** One open/close cycle by two clicks on the face: one call to
    [addEventListener], one to [removeEventListener], and the widget is
    closed again with no listener left. *)
Lemma face_click_cycle (w : World) :
  paired w ->
  _showDropdown (this w) = false ->
  paired (fst (run [FaceClick; FaceClick] w)) /\
  _showDropdown (this (fst (run [FaceClick; FaceClick] w))) = false /\
  snd (run [FaceClick; FaceClick] w)
    = [AddEventListener OnClickOutsideBound; RemoveEventListener OnClickOutsideBound].
Proof.
  intros H Hclosed. open_world w. subst sd.
  unfold paired in H |- *. cbn [this windowClickListeners _showDropdown] in H.
  subst ls. destruct mu; repeat split.
Qed.

(** Opening and closing [n] times by face clicks attaches and detaches the
    listener [n] times each and leaves none attached. *)
Lemma face_click_cycles (n : nat) : forall w : World,
  paired w ->
  _showDropdown (this w) = false ->
  windowClickListeners
    (fst (run (concat (repeat [FaceClick; FaceClick] n)) w)) = [] /\
  _showDropdown
    (this (fst (run (concat (repeat [FaceClick; FaceClick] n)) w))) = false /\
  count_add (snd (run (concat (repeat [FaceClick; FaceClick] n)) w)) = n /\
  count_remove (snd (run (concat (repeat [FaceClick; FaceClick] n)) w)) = n.
Proof.
  induction n as [|n IH]; intros w H Hclosed.
  - cbn. unfold paired in H. rewrite Hclosed in H. auto.
  - destruct (face_click_cycle w H Hclosed) as (H2 & Hclosed2 & Hes).
    cbn [repeat concat app run] in *.
    set (w1 := after (handler FaceClick w)) in *.
    set (w2 := after (handler FaceClick w1)) in *.
    destruct (run (concat (repeat [FaceClick; FaceClick] n)) w2) as [w3 es] eqn:E.
    cbn [fst snd] in *.
    specialize (IH w2 H2 Hclosed2). rewrite E in IH. cbn [fst snd] in IH.
    destruct IH as (Hl & Hc & Ha & Hr).
    split; [exact Hl|]. split; [exact Hc|].
    rewrite app_assoc, count_add_app, count_remove_app.
    rewrite app_nil_r in Hes. rewrite Hes, Ha, Hr. split; reflexivity.
Qed.

(** C2, the defect: Escape assigns [_showDropdown = false] without going
    through [_toggleDropdown].  After a face click and Escape, in either
    mode, the dropdown is closed, [addEventListener] has been called once,
    [removeEventListener] never, and the listener is still registered on
    [window]. *)
Theorem C2_escape_leaves_listener (multiple : bool) :
  _showDropdown (this (fst (run [FaceClick; KeyDown "Escape"] (initial multiple))))
    = false /\
  windowClickListeners (fst (run [FaceClick; KeyDown "Escape"] (initial multiple)))
    = [OnClickOutsideBound] /\
  count_add (snd (run [FaceClick; KeyDown "Escape"] (initial multiple))) = 1%nat /\
  count_remove (snd (run [FaceClick; KeyDown "Escape"] (initial multiple))) = 0%nat.
Proof. destruct multiple; repeat split. Qed.

(** ** Option ingestion and the selection *)

Lemma indexed_snoc (opts : list InternalOption) (o : InternalOption) :
  indexed opts -> index o = Z.of_nat (length opts) -> indexed (opts ++ [o]).
Proof.
  intros Hopts Ho k o' Hk.
  destruct (Nat.lt_ge_cases k (length opts)) as [Hlt|Hge].
  - rewrite lookup_app_l in Hk by exact Hlt. exact (Hopts k o' Hk).
  - rewrite lookup_app_r in Hk by exact Hge.
    destruct (k - length opts)%nat as [|j] eqn:E; cbn in Hk; [|discriminate Hk].
    injection Hk as <-. rewrite Ho. f_equal. lia.
Qed.

Lemma ingest_node_inv (acc : list InternalOption * Z * OptionListStat)
    (el : SlotNode) :
  ingest_inv acc -> ingest_inv (ingest_node acc el).
Proof.
  destruct acc as [[opts cur] stat]. intros (Hcur & Hidx & Hsel).
  unfold ingest_node.
  destruct (negb ((nodeType el =? ELEMENT_NODE) && matches_vscode_option el));
    [repeat split; assumption|].
  cbn [ingest_inv]. split; [reflexivity|]. split.
  - apply indexed_snoc; [exact Hidx | exact Hcur].
  - rewrite List.filter_app, map_app. cbn [List.filter op selected].
    destruct (node_selected el); cbn [selectedIndexes map index app].
    + rewrite Hsel. f_equal. f_equal. rewrite length_app. cbn [length]. lia.
    + rewrite app_nil_r. exact Hsel.
Qed.

Lemma ingest_from_inv (nodes : list SlotNode) :
  forall acc, ingest_inv acc -> ingest_inv (fold_left ingest_node nodes acc).
Proof.
  induction nodes as [|el nodes IH]; intros acc H; [exact H|].
  cbn [fold_left]. apply IH, ingest_node_inv, H.
Qed.

Lemma ingest_inv_holds (nodes : list SlotNode) : ingest_inv (ingest nodes).
Proof.
  apply ingest_from_inv. repeat split. intros k o Hk. discriminate Hk.
Qed.

(** The number of collected indexes is the number of pre-selected nodes. *)
Lemma ingest_from_count (nodes : list SlotNode) :
  forall acc : list InternalOption * Z * OptionListStat,
    length (selectedIndexes (snd (fold_left ingest_node nodes acc)))
      = (length (selectedIndexes (snd acc)) + length (preselected nodes))%nat.
Proof.
  induction nodes as [|el nodes IH]; intros [[opts cur] stat].
  - cbn. lia.
  - cbn [fold_left]. rewrite IH. unfold preselected, ingest_node, is_option_node.
    cbn [List.filter].
    destruct ((nodeType el =? ELEMENT_NODE) && matches_vscode_option el);
      cbn [negb andb snd]; [|lia].
    destruct (node_selected el); cbn [selectedIndexes snd length];
      [rewrite length_app; cbn [length]|]; lia.
Qed.


Lemma js_index_in_range {A : Type} (l : list A) (i : Z) :
  0 <= i < Z.of_nat (length l) -> exists x : A, js_index l i = Some x.
Proof.
  intros H. unfold js_index.
  destruct (Z.ltb_spec i 0); [lia|].
  destruct (lookup_lt_is_Some_2 l (Z.to_nat i)) as [x Hx]; [lia|].
  exists x. exact Hx.
Qed.





(** ** Space in multi-select mode *)

Lemma js_index_Some {A : Type} (l : list A) (i : Z) (x : A) :
  js_index l i = Some x <-> 0 <= i /\ l !! Z.to_nat i = Some x.
Proof.
  unfold js_index. destruct (Z.ltb_spec i 0); split.
  - discriminate.
  - intros [Hi _]. lia.
  - intros H'. split; [lia | exact H'].
  - intros [_ H']. exact H'.
Qed.

(** The [forEach] of [_onSpaceKeyDown] appends, in list order, the [index]
    of every option whose flag is set. *)
Lemma fold_push_selected (opts : list InternalOption) :
  forall acc : list Z,
    fold_left push_selected opts acc
      = acc ++ map index (List.filter (fun o => selected (op o)) opts).
Proof.
  induction opts as [|o opts IH]; intros acc; cbn [fold_left List.filter map].
  - now rewrite app_nil_r.
  - rewrite IH. unfold push_selected.
    destruct (selected (op o)); cbn [map]; [|reflexivity].
    now rewrite <- app_assoc.
Qed.

Lemma indexed_from_sorted (opts : list InternalOption) :
  forall b : Z,
    indexed_from b opts ->
    StronglySorted Z.lt (map index (List.filter (fun o => selected (op o)) opts)) /\
    Forall (fun i => b <= i) (map index (List.filter (fun o => selected (op o)) opts)).
Proof.
  induction opts as [|o opts IH]; intros b Hb; cbn [List.filter map].
  - split; constructor.
  - assert (Htail : indexed_from (b + 1) opts).
    { intros k o' Hk. rewrite (Hb (S k) o' Hk). lia. }
    assert (Hhead : index o = b).
    { rewrite (Hb 0%nat o eq_refl). lia. }
    destruct (IH (b + 1) Htail) as [Hs Hf].
    assert (Hf' : Forall (fun i => b <= i)
                   (map index (List.filter (fun o => selected (op o)) opts))).
    { eapply List.Forall_impl; [|exact Hf]. cbn. intros; lia. }
    destruct (selected (op o)); cbn [map]; [|split; assumption].
    split.
    + constructor; [exact Hs|]. rewrite Hhead.
      eapply List.Forall_impl; [|exact Hf]. cbn. intros; lia.
    + constructor; [lia | exact Hf'].
Qed.

(** With position indexes, the collected list is ascending and holds
    exactly the indexes of the option records whose flag is set. *)
Lemma indexed_selected_exact (opts : list InternalOption) :
  indexed opts ->
  StronglySorted Z.lt (map index (List.filter (fun o => selected (op o)) opts)) /\
  forall j : Z,
    In j (map index (List.filter (fun o => selected (op o)) opts)) <->
    exists o : InternalOption, js_index opts j = Some o /\ selected (op o) = true.
Proof.
  intros Hidx. split.
  - apply (indexed_from_sorted opts 0). intros k o Hk. rewrite (Hidx k o Hk). lia.
  - intros j. split.
    + intros Hin. apply in_map_iff in Hin as [o [<- Ho]].
      apply List.filter_In in Ho as [Ho Hsel].
      apply list_elem_of_In, list_elem_of_lookup in Ho as [k Hk].
      exists o. split; [|exact Hsel].
      apply js_index_Some. rewrite (Hidx k o Hk), Nat2Z.id. split; [lia | exact Hk].
    + intros [o [Ho Hsel]]. apply js_index_Some in Ho as [Hj Ho].
      apply in_map_iff. exists o. split.
      * rewrite (Hidx _ o Ho). lia.
      * apply List.filter_In. split; [|exact Hsel].
        apply list_elem_of_In, list_elem_of_lookup. eauto.
Qed.

Lemma indexed_alter_selected (opts : list InternalOption) (b : bool) (i : nat) :
  indexed opts -> indexed (alter (set_selected b) i opts).
Proof.
  intros Hidx k o Hk. rewrite list_lookup_alter in Hk.
  destruct (decide (i = k)) as [->|Hne].
  - destruct (opts !! k) as [o'|] eqn:E; [|discriminate Hk].
    cbn in Hk. injection Hk as <-. cbn [set_selected index]. exact (Hidx k o' E).
  - exact (Hidx k o Hk).
Qed.

(** Every handler keeps the [index] fields equal to the positions: the
    [options] setter and ingestion number the records afresh, Space only
    writes [selected], and nothing else touches the list. *)
Lemma indexed_step (ev : Event) (w : World) :
  indexed (_options (this w)) ->
  indexed (_options (this (after (handler ev w)))).
Proof.
  intros H. destruct ev as [|path|key|m i|nodes|val|opts| |key|v| |].
  - open_world w. cases_handler; exact H.
  - open_world w. unfold handler. cbn [windowClickListeners].
    destruct (existsb (Listener_eqb OnClickOutsideBound) ls);
      cases_handler; exact H.
  - destruct (keydown_cases key) as [->|[->|[->|[->|[->|Hnone]]]]].
    + open_world w. cases_handler; exact H.
    + open_world w. cases_handler; try exact H.
      apply indexed_alter_selected. exact H.
    + open_world w. cases_handler; exact H.
    + open_world w. cases_handler; exact H.
    + open_world w. cases_handler; exact H.
    + rewrite Hnone. exact H.
  - open_world w. destruct m; cases_handler; exact H.
  - pose proof (ingest_inv_holds nodes) as Hinv.
    open_world w. eval_handler.
    destruct (ingest nodes) as [[opts cur] stat].
    destruct Hinv as (_ & Hidx & _).
    cases_handler; exact Hidx.
  - open_world w. unfold handler, filter_set.
    destruct (includes validValues val); exact H.
  - open_world w. eval_handler. intros k o Hk.
    rewrite list_lookup_imap in Hk.
    destruct (opts !! k); [|discriminate Hk].
    cbn in Hk. injection Hk as <-. reflexivity.
  - open_world w. cases_handler; exact H.
  - open_world w. unfold handler, _onComboboxButtonKeyDown.
    destruct (String.eqb key "Enter"); cases_handler; exact H.
  - open_world w. cases_handler; exact H.
  - exact H.
  - exact H.
Qed.

(** In every state the widget can reach, the [index] of an option record is
    its position in the list. *)
Lemma indexed_run (evs : list Event) : forall w : World,
  indexed (_options (this w)) ->
  indexed (_options (this (fst (run evs w)))).
Proof.
  induction evs as [|ev evs IH]; intros w H; [exact H|].
  cbn [run]. specialize (IH (after (handler ev w)) (indexed_step ev w H)).
  destruct (run evs (after (handler ev w))) as [w' es]. exact IH.
Qed.

Lemma indexed_initial (multiple : bool) :
  indexed (_options (this (initial multiple))).
Proof. intros k o Hk. discriminate Hk. Qed.




(** * Further properties of the class *)

(** ** The [options] property *)

Lemma options_of_imap (g : nat -> Z) (opts : list Option) :
  map op (imap (fun i o => mkInternalOption o (g i)) opts) = opts.
Proof.
  revert g. induction opts as [|o opts IH]; intros g; [reflexivity|].
  cbn [imap map op]. f_equal. exact (IH (fun i => g (S i))).
Qed.

(** X1: reading [options] after assigning it gives back the assigned list,
    in every state: the indexes added by the setter do not show. *)
Theorem X1_options_round_trip (opts : list Option) (w : World) :
  completion (handler (SetOptions opts) w) = Normal tt /\
  options_get (this (after (handler (SetOptions opts) w))) = opts /\
  length (_options (this (after (handler (SetOptions opts) w)))) = length opts.
Proof.
  open_world w. eval_handler. unfold options_get. cbn [_options].
  split; [reflexivity|]. split; [apply options_of_imap|].
  rewrite <- (options_of_imap Z.of_nat opts) at 2. now rewrite length_map.
Qed.

(** X2: in every state that a constructed widget reaches, by whatever
    events, the [index] of each option record is its position in the
    list. *)
Theorem X2_index_is_position (multiple : bool) (evs : list Event)
    (k : nat) (o : InternalOption) :
  _options (this (fst (run evs (initial multiple)))) !! k = Some o ->
  index o = Z.of_nat k /\
  js_index (_options (this (fst (run evs (initial multiple))))) (index o) = Some o.
Proof.
  intros Hk.
  pose proof (indexed_run evs (initial multiple) (indexed_initial multiple) k o Hk)
    as Hidx.
  split; [exact Hidx|]. rewrite Hidx. apply js_index_Some.
  rewrite Nat2Z.id. split; [lia | exact Hk].
Qed.

Lemma X2_index_is_position_witness :
  index (mkInternalOption (mkOption "B" "b" None false) 1) = 1 /\
  js_index (_options (this (fst (run [SetOptions abc; FaceClick] (initial true)))))
    (index (mkInternalOption (mkOption "B" "b" None false) 1))
    = Some (mkInternalOption (mkOption "B" "b" None false) 1).
Proof.
  apply (X2_index_is_position true [SetOptions abc; FaceClick] 1%nat).
  reflexivity.
Defined.

(** ** Ingestion of the slotted nodes *)

Lemma ingest_from_options (nodes : list SlotNode) :
  forall (opts : list InternalOption) (cur : Z) (stat : OptionListStat),
    cur = Z.of_nat (length opts) ->
    fst (fst (fold_left ingest_node nodes (opts, cur, stat)))
      = opts ++ imap (fun i => option_of_node (length opts + i))
                  (List.filter is_option_node nodes).
Proof.
  induction nodes as [|el nodes IH]; intros opts cur stat Hcur.
  - cbn. now rewrite app_nil_r.
  - cbn [fold_left List.filter]. unfold ingest_node at 2.
    fold (is_option_node el).
    destruct (is_option_node el); cbn [negb].
    + rewrite IH by reflexivity. rewrite <- app_assoc. f_equal.
      cbn [imap app]. f_equal.
      * unfold option_of_node, effective_value.
        rewrite Hcur, Nat.add_0_r. reflexivity.
      * apply imap_ext. intros i x _. cbn [compose].
        rewrite length_app. cbn [length].
        replace (length opts + 1 + i)%nat with (length opts + S i)%nat by lia.
        reflexivity.
    + apply IH. exact Hcur.
Qed.

(** X3: ingestion keeps exactly the element nodes matching
    [vscode-option], in document order, and builds for the kept node at
    position [i] the record with label = its text, value = its [value]
    attribute if present and its text otherwise, its description, its
    selected flag and index [i]. *)
Theorem X3_ingest_options (nodes : list SlotNode) (w : World) :
  _options (this (after (handler (SlotChange nodes) w)))
    = imap option_of_node (List.filter is_option_node nodes) /\
  length (_options (this (after (handler (SlotChange nodes) w))))
    = length (List.filter is_option_node nodes).
Proof.
  assert (H : _options (this (after (handler (SlotChange nodes) w)))
              = imap option_of_node (List.filter is_option_node nodes)).
  { pose proof (ingest_from_options nodes [] 0 (mkStat [] []) eq_refl) as Hopts.
    change (fold_left ingest_node nodes ([], 0, mkStat [] [])) with (ingest nodes)
      in Hopts.
    cbn [app length Nat.add] in Hopts.
    open_world w. eval_handler.
    destruct (ingest nodes) as [[opts cur] stat]. cbn [fst] in Hopts.
    cases_handler; exact Hopts. }
  split; [exact H|]. rewrite H. apply length_imap.
Qed.

Lemma ingest_node_values (acc : list InternalOption * Z * OptionListStat)
    (el : SlotNode) :
  values (snd acc)
    = map (fun o => value (op o))
        (List.filter (fun o => selected (op o)) (fst (fst acc))) ->
  values (snd (ingest_node acc el))
    = map (fun o => value (op o))
        (List.filter (fun o => selected (op o)) (fst (fst (ingest_node acc el)))).
Proof.
  destruct acc as [[opts cur] stat]. cbn [fst snd]. intros H.
  unfold ingest_node.
  destruct (negb ((nodeType el =? ELEMENT_NODE) && matches_vscode_option el));
    [exact H|].
  cbn [fst snd]. rewrite List.filter_app, map_app.
  cbn [List.filter op selected].
  destruct (node_selected el); cbn [values map value op].
  - now rewrite H.
  - now rewrite app_nil_r.
Qed.

Lemma ingest_values (nodes : list SlotNode) :
  values (snd (ingest nodes))
    = map (fun o => value (op o))
        (List.filter (fun o => selected (op o)) (fst (fst (ingest nodes)))).
Proof.
  unfold ingest.
  assert (G : forall acc,
            values (snd acc)
              = map (fun o => value (op o))
                  (List.filter (fun o => selected (op o)) (fst (fst acc))) ->
            values (snd (fold_left ingest_node nodes acc))
              = map (fun o => value (op o))
                  (List.filter (fun o => selected (op o))
                     (fst (fst (fold_left ingest_node nodes acc))))).
  { induction nodes as [|el nodes IH]; intros acc H; [exact H|].
    cbn [fold_left]. apply IH, ingest_node_values, H. }
  apply G. reflexivity.
Qed.

(** X4: the statistics returned by ingestion: [selectedIndexes] are the
    indexes, and [values] the values, of the ingested records whose flag is
    set, in list order; there are as many as pre-selected kept nodes; the
    indexes are strictly ascending and each names an ingested record whose
    flag is set. *)
Theorem X4_ingest_stat (nodes : list SlotNode) :
  selectedIndexes (snd (ingest nodes))
    = map index
        (List.filter (fun o => selected (op o)) (fst (fst (ingest nodes)))) /\
  values (snd (ingest nodes))
    = map (fun o => value (op o))
        (List.filter (fun o => selected (op o)) (fst (fst (ingest nodes)))) /\
  length (selectedIndexes (snd (ingest nodes))) = length (preselected nodes) /\
  StronglySorted Z.lt (selectedIndexes (snd (ingest nodes))) /\
  (forall j : Z,
     In j (selectedIndexes (snd (ingest nodes))) <->
     exists o : InternalOption,
       js_index (fst (fst (ingest nodes))) j = Some o /\ selected (op o) = true).
Proof.
  pose proof (ingest_inv_holds nodes) as Hinv.
  pose proof (ingest_values nodes) as Hval.
  pose proof (ingest_from_count nodes ([], 0, mkStat [] [])) as Hcount.
  change (fold_left ingest_node nodes ([], 0, mkStat [] [])) with (ingest nodes)
    in Hcount.
  destruct (ingest nodes) as [[opts cur] stat]. cbn [fst snd] in *.
  destruct Hinv as (_ & Hidx & Hsel).
  split; [exact Hsel|]. split; [exact Hval|]. split; [exact Hcount|].
  rewrite Hsel. apply indexed_selected_exact, Hidx.
Qed.

(** X5: ingesting the same nodes a second time changes nothing, and an
    ingestion never touches the stored value(s), the Active Index, the
    visibility, the filter or the listener on [window]: only the option
    list and the selected index(es) can change. *)
Theorem X5_slot_change_idempotent (nodes : list SlotNode) (w : World) :
  handler (SlotChange nodes) (after (handler (SlotChange nodes) w))
    = mkOutcome (Normal tt) (after (handler (SlotChange nodes) w)) [] /\
  _value (this (after (handler (SlotChange nodes) w))) = _value (this w) /\
  _values (this (after (handler (SlotChange nodes) w))) = _values (this w) /\
  _activeIndex (this (after (handler (SlotChange nodes) w))) = _activeIndex (this w) /\
  _showDropdown (this (after (handler (SlotChange nodes) w))) = _showDropdown (this w) /\
  ariaExpanded (this (after (handler (SlotChange nodes) w))) = ariaExpanded (this w) /\
  _filter (this (after (handler (SlotChange nodes) w))) = _filter (this w) /\
  _filterPattern (this (after (handler (SlotChange nodes) w))) = _filterPattern (this w) /\
  windowClickListeners (after (handler (SlotChange nodes) w)) = windowClickListeners w.
Proof.
  open_world w. eval_handler.
  destruct (ingest nodes) as [[opts cur] stat].
  cases_handler; repeat split; lia.
Qed.

(** ** [aria-expanded] *)

Ltac use_aria H :=
  unfold aria_synced in H |- *;
  cbn [this ariaExpanded _showDropdown] in H; subst.

(** Every handler except the one for Escape leaves [aria-expanded] equal to
    the visibility. *)
Lemma aria_step (ev : Event) (w : World) :
  ev <> KeyDown "Escape" ->
  aria_synced w -> aria_synced (after (handler ev w)).
Proof.
  intros Hev H. destruct ev as [|path|key|m i|nodes|val|opts| |key|v| |].
  - open_world w. use_aria H. cases_handler; reflexivity.
  - open_world w. use_aria H. unfold handler. cbn [windowClickListeners].
    destruct (existsb (Listener_eqb OnClickOutsideBound) ls);
      cases_handler; reflexivity.
  - destruct (keydown_cases key) as [->|[->|[->|[->|[->|Hnone]]]]].
    + open_world w. use_aria H. cases_handler; reflexivity.
    + open_world w. use_aria H. cases_handler; reflexivity.
    + congruence.
    + open_world w. use_aria H. cases_handler; reflexivity.
    + open_world w. use_aria H. cases_handler; reflexivity.
    + rewrite Hnone. exact H.
  - open_world w. use_aria H. destruct m; cases_handler; reflexivity.
  - open_world w. use_aria H. eval_handler.
    destruct (ingest nodes) as [[opts cur] stat]. cases_handler; reflexivity.
  - open_world w. use_aria H. unfold handler, filter_set.
    destruct (includes validValues val); reflexivity.
  - open_world w. use_aria H. reflexivity.
  - open_world w. use_aria H. cases_handler; reflexivity.
  - open_world w. use_aria H. unfold handler, _onComboboxButtonKeyDown.
    destruct (String.eqb key "Enter"); cases_handler; reflexivity.
  - open_world w. use_aria H. cases_handler; reflexivity.
  - open_world w. use_aria H. reflexivity.
  - open_world w. use_aria H. reflexivity.
Qed.

(** X6: along every run without the Escape key, [aria-expanded] is ["true"]
    exactly while the dropdown is shown and ["false"] otherwise. *)
Theorem X6_aria_expanded_follows_visibility (evs : list Event) : forall w : World,
  Forall (fun ev => ev <> KeyDown "Escape") evs ->
  aria_synced w ->
  aria_synced (fst (run evs w)).
Proof.
  induction evs as [|ev evs IH]; intros w Hall H.
  - exact H.
  - inversion Hall as [|? ? Hev Hrest]; subst. cbn [run].
    specialize (IH (after (handler ev w)) Hrest (aria_step ev w Hev H)).
    destruct (run evs (after (handler ev w))) as [w' es]. exact IH.
Qed.

Lemma X6_aria_expanded_follows_visibility_witness :
  aria_synced
    (fst (run [SetOptions abc; KeyDown " "; KeyDown "ArrowDown"; KeyDown "Enter";
               FaceClick] (initial false))).
Proof.
  apply X6_aria_expanded_follows_visibility.
  - repeat (constructor; [discriminate|]). constructor.
  - reflexivity.
Defined.

(** ** Clicks reaching [window] *)

Lemma findIndex_from_found {A : Type} (p : A -> bool) (l : list A) :
  forall i : Z, 0 <= i ->
    (exists x, In x l /\ p x = true) -> 0 <= findIndex_from p l i.
Proof.
  induction l as [|y l IH]; intros i Hi [x [Hin Hp]]; [destruct Hin|].
  cbn [findIndex_from]. destruct (p y) eqn:Ey; [exact Hi|].
  apply IH; [lia|]. destruct Hin as [->|Hin]; [congruence|]. eauto.
Qed.

Lemma findIndex_from_missing {A : Type} (p : A -> bool) (l : list A) :
  forall i : Z, (forall x, In x l -> p x = false) -> findIndex_from p l i = -1.
Proof.
  induction l as [|y l IH]; intros i H; [reflexivity|].
  cbn [findIndex_from]. rewrite (H y (or_introl eq_refl)).
  apply IH. intros x Hx. apply H. right. exact Hx.
Qed.

(** X7: a click that reaches [window] is ignored, with the whole state as
    it was, when its composed path contains the widget or when the listener
    is not registered.  When the path does not contain the widget and the
    listener is registered, the dropdown ends closed with [aria-expanded]
    ["false"], no listener left on [window] and [removeEventListener]
    called twice. *)
Theorem X7_window_click (path : list EventTarget) (w : World) :
  (In ThisElement path ->
   handler (WindowClick path) w = mkOutcome (Normal tt) w []) /\
  (~ In OnClickOutsideBound (windowClickListeners w) ->
   handler (WindowClick path) w = mkOutcome (Normal tt) w []) /\
  (~ In ThisElement path ->
   In OnClickOutsideBound (windowClickListeners w) ->
   completion (handler (WindowClick path) w) = Normal tt /\
   _showDropdown (this (after (handler (WindowClick path) w))) = false /\
   ariaExpanded (this (after (handler (WindowClick path) w))) = "false" /\
   windowClickListeners (after (handler (WindowClick path) w)) = [] /\
   emitted (handler (WindowClick path) w)
     = [RemoveEventListener OnClickOutsideBound;
        RemoveEventListener OnClickOutsideBound]).
Proof.
  split; [|split].
  - intros Hin. unfold handler.
    assert (Hfound : 0 <= findIndex is_this path).
    { apply findIndex_from_found; [lia|]. exists ThisElement. split; [exact Hin | reflexivity]. }
    unfold _onClickOutside.
    destruct (Z.eqb_spec (findIndex is_this path) (-1)) as [E|_]; [lia|].
    destruct (existsb (Listener_eqb OnClickOutsideBound) (windowClickListeners w));
      destruct w; reflexivity.
  - intros Hout. unfold handler.
    destruct (existsb (Listener_eqb OnClickOutsideBound) (windowClickListeners w))
      eqn:E; [|destruct w; reflexivity].
    apply existsb_exists in E as [[] [Hin _]]. contradiction.
  - intros Hout Hin. unfold handler. rewrite (listener_registered _ Hin).
    unfold when at 1. unfold _onClickOutside, findIndex.
    rewrite findIndex_from_missing.
    + assert (Hnone : forall (f : Listener -> bool) (ls : list Listener),
                (forall l, f l = false) -> List.filter f ls = []).
      { intros f ls Hf. induction ls as [|l ls IHls]; [reflexivity|].
        cbn [List.filter]. now rewrite Hf. }
      rewrite Z.eqb_refl. open_world w. eval_handler.
      rewrite (Hnone _ ls) by (intros []; reflexivity).
      repeat split.
    + intros [|id] Hx; [contradiction | reflexivity].
Qed.

Lemma X7_window_click_witness :
  handler (WindowClick [OtherTarget 1; ThisElement; OtherTarget 0]) abc_open
    = mkOutcome (Normal tt) abc_open [] /\
  handler (WindowClick [OtherTarget 0]) (initial false)
    = mkOutcome (Normal tt) (initial false) [] /\
  (_showDropdown (this (after (handler (WindowClick [OtherTarget 0]) abc_open)))
     = false /\
   windowClickListeners (after (handler (WindowClick [OtherTarget 0]) abc_open))
     = []).
Proof.
  split; [|split].
  - apply (proj1 (X7_window_click _ abc_open)). simpl. tauto.
  - apply (proj1 (proj2 (X7_window_click _ (initial false)))). simpl. tauto.
  - destruct (proj2 (proj2 (X7_window_click [OtherTarget 0] abc_open)))
      as (_ & Hc & _ & Hl & _).
    + simpl. intros [H|[]]. discriminate H.
    + simpl. tauto.
    + split; [exact Hc | exact Hl].
Defined.

(** ** Keys *)

(** X8: a key other than Enter, Space, Escape, ArrowUp and ArrowDown
    (compared exactly, so also ["enter"] or ["Tab"]) is ignored: no call on
    the event, no effect, the state as it was. *)
Theorem X8_other_keys_ignored (key : string) (w : World) :
  ~ In key ["Enter"; " "; "Escape"; "ArrowUp"; "ArrowDown"] ->
  handler (KeyDown key) w = mkOutcome (Normal tt) w [].
Proof.
  intros Hnot.
  destruct (keydown_cases key) as [->|[->|[->|[->|[->|Hnone]]]]];
    try (exfalso; apply Hnot; simpl; tauto).
  apply Hnone.
Qed.

Lemma X8_other_keys_ignored_witness :
  handler (KeyDown "enter") abc_open = mkOutcome (Normal tt) abc_open [].
Proof.
  apply X8_other_keys_ignored. simpl.
  intros H. repeat destruct H as [H|H]; try discriminate H. exact H.
Defined.

Lemma arrow_down_iter (k : nat) : forall w : World,
  _showDropdown (this w) = true ->
  _showDropdown (this (fst (run (repeat (KeyDown "ArrowDown") k) w))) = true /\
  _options (this (fst (run (repeat (KeyDown "ArrowDown") k) w))) = _options (this w) /\
  _activeIndex (this (fst (run (repeat (KeyDown "ArrowDown") k) w)))
    = (if _activeIndex (this w) <? Z.of_nat (length (_options (this w))) - 1
       then Z.min (_activeIndex (this w) + Z.of_nat k)
                  (Z.of_nat (length (_options (this w))) - 1)
       else _activeIndex (this w)).
Proof.
  induction k as [|k IH]; intros w Hopen.
  - cbn [repeat run fst]. split; [exact Hopen|]. split; [reflexivity|].
    destruct (Z.ltb_spec (_activeIndex (this w))
                (Z.of_nat (length (_options (this w))) - 1)); lia.
  - cbn [repeat run]. rewrite (arrow_down_open w Hopen). cbn [after emitted].
    set (w1 := mkWorld _ _).
    assert (Hopen1 : _showDropdown (this w1) = true)
      by (subst w1; open_world w; exact Hopen).
    assert (Hopts : _options (this w1) = _options (this w))
      by (subst w1; open_world w; reflexivity).
    assert (Hact : _activeIndex (this w1)
                   = if _activeIndex (this w) <? Z.of_nat (length (_options (this w))) - 1
                     then _activeIndex (this w) + 1 else _activeIndex (this w))
      by (subst w1; open_world w; reflexivity).
    destruct (IH w1 Hopen1) as (Ho & Hl & Ha).
    destruct (run (repeat (KeyDown "ArrowDown") k) w1) as [w2 es].
    cbn [fst] in *. rewrite Hopts in *.
    split; [exact Ho|]. split; [exact Hl|].
    rewrite Ha, Hact.
    destruct (Z.ltb_spec (_activeIndex (this w))
                (Z.of_nat (length (_options (this w))) - 1));
      [|destruct (Z.ltb_spec (_activeIndex (this w))
                   (Z.of_nat (length (_options (this w))) - 1)); lia].
    destruct (Z.ltb_spec (_activeIndex (this w) + 1)
                (Z.of_nat (length (_options (this w))) - 1)); lia.
Qed.

Lemma arrow_up_iter (k : nat) : forall w : World,
  _showDropdown (this w) = true ->
  _showDropdown (this (fst (run (repeat (KeyDown "ArrowUp") k) w))) = true /\
  _activeIndex (this (fst (run (repeat (KeyDown "ArrowUp") k) w)))
    = (if 0 <? _activeIndex (this w)
       then Z.max (_activeIndex (this w) - Z.of_nat k) 0
       else _activeIndex (this w)).
Proof.
  induction k as [|k IH]; intros w Hopen.
  - cbn [repeat run fst]. split; [exact Hopen|].
    destruct (Z.ltb_spec 0 (_activeIndex (this w))); lia.
  - cbn [repeat run]. rewrite (arrow_up_open w Hopen). cbn [after emitted].
    set (w1 := mkWorld _ _).
    assert (Hopen1 : _showDropdown (this w1) = true)
      by (subst w1; open_world w; exact Hopen).
    assert (Hact : _activeIndex (this w1)
                   = if 0 <? _activeIndex (this w)
                     then _activeIndex (this w) - 1 else _activeIndex (this w))
      by (subst w1; open_world w; reflexivity).
    destruct (IH w1 Hopen1) as (Ho & Ha).
    destruct (run (repeat (KeyDown "ArrowUp") k) w1) as [w2 es].
    cbn [fst] in *. split; [exact Ho|].
    rewrite Ha, Hact.
    destruct (Z.ltb_spec 0 (_activeIndex (this w)));
      [|destruct (Z.ltb_spec 0 (_activeIndex (this w))); lia].
    destruct (Z.ltb_spec 0 (_activeIndex (this w) - 1)); lia.
Qed.

(** X9: on a closed dropdown ArrowUp and ArrowDown change nothing.  On an
    open dropdown over [n] options with Active Index [a], [k] presses of
    ArrowDown give [min (a + k) (n - 1)] when [a < n - 1] and leave [a]
    otherwise; [k] presses of ArrowUp give [max (a - k) 0] when [a > 0] and
    leave [a] otherwise, so ArrowUp never brings the index back to -1. *)
Theorem X9_arrow_keys_iterated (w : World) :
  (_showDropdown (this w) = false ->
   handler (KeyDown "ArrowDown") w
     = mkOutcome (Normal tt) w [StopPropagation; PreventDefault] /\
   handler (KeyDown "ArrowUp") w
     = mkOutcome (Normal tt) w [StopPropagation; PreventDefault]) /\
  (_showDropdown (this w) = true ->
   forall k : nat,
     _activeIndex (this (fst (run (repeat (KeyDown "ArrowDown") k) w)))
       = (if _activeIndex (this w) <? Z.of_nat (length (_options (this w))) - 1
          then Z.min (_activeIndex (this w) + Z.of_nat k)
                     (Z.of_nat (length (_options (this w))) - 1)
          else _activeIndex (this w)) /\
     _activeIndex (this (fst (run (repeat (KeyDown "ArrowUp") k) w)))
       = (if 0 <? _activeIndex (this w)
          then Z.max (_activeIndex (this w) - Z.of_nat k) 0
          else _activeIndex (this w))).
Proof.
  split.
  - open_world w. intros ->. split; reflexivity.
  - intros Hopen k. split.
    + apply (arrow_down_iter k w Hopen).
    + apply (arrow_up_iter k w Hopen).
Qed.

Lemma X9_arrow_keys_iterated_witness :
  handler (KeyDown "ArrowDown") (initial false)
    = mkOutcome (Normal tt) (initial false) [StopPropagation; PreventDefault] /\
  _activeIndex (this (fst (run (repeat (KeyDown "ArrowDown") 7) abc_open))) = 2 /\
  _activeIndex (this (fst (run (repeat (KeyDown "ArrowUp") 7) abc_navigated))) = 0.
Proof.
  split; [|split].
  - apply (proj1 (X9_arrow_keys_iterated (initial false)) eq_refl).
  - apply (proj2 (X9_arrow_keys_iterated abc_open) eq_refl 7%nat).
  - apply (proj2 (X9_arrow_keys_iterated abc_navigated) eq_refl 7%nat).
Defined.

(** ** Toggling *)

(** X10: a face click, the Enter key, a click on the combobox button and
    Enter on the combobox button each invert the visibility of the
    dropdown, in every state (for the Enter key also when its handler
    throws); two of them in a row restore it. *)
Theorem X10_togglers_invert_visibility (w : World) (t1 t2 : Event) :
  In t1 [FaceClick; KeyDown "Enter"; ComboboxButtonClick;
         ComboboxButtonKeyDown "Enter"] ->
  In t2 [FaceClick; KeyDown "Enter"; ComboboxButtonClick;
         ComboboxButtonKeyDown "Enter"] ->
  _showDropdown (this (after (handler t1 w))) = negb (_showDropdown (this w)) /\
  _showDropdown (this (fst (run [t1; t2] w))) = _showDropdown (this w).
Proof.
  assert (Hflip : forall (t : Event) (w' : World),
            In t [FaceClick; KeyDown "Enter"; ComboboxButtonClick;
                  ComboboxButtonKeyDown "Enter"] ->
            _showDropdown (this (after (handler t w')))
              = negb (_showDropdown (this w'))).
  { intros t w' [<-|[<-|[<-|[<-|[]]]]]; open_world w'; cases_handler; reflexivity. }
  intros H1 H2. split; [apply Hflip, H1|].
  cbn [run fst]. rewrite (Hflip t2 _ H2), (Hflip t1 w H1). apply negb_involutive.
Qed.

Lemma X10_togglers_invert_visibility_witness :
  _showDropdown (this (after (handler (KeyDown "Enter") abc_open))) = false /\
  _showDropdown (this (fst (run [KeyDown "Enter"; ComboboxButtonClick] abc_open)))
    = true.
Proof.
  apply (X10_togglers_invert_visibility abc_open); simpl; tauto.
Defined.

(** ** Change notifications, continued *)

(** X11: after a commit by Enter, opening the dropdown again (by face
    click, Enter or Space) and pressing Enter at once dispatches nothing
    more: the three events together dispatch the one notification of the
    commit, and the selection stays. *)
Theorem X11_commit_then_reopen_is_silent (w : World) (o : InternalOption)
    (opener : Event) :
  _multiple (this w) = false ->
  _showDropdown (this w) = true ->
  _activeIndex (this w) <> _selectedIndex (this w) ->
  js_index (_options (this w)) (_activeIndex (this w)) = Some o ->
  In opener [FaceClick; KeyDown "Enter"; KeyDown " "] ->
  notifications (snd (run [KeyDown "Enter"; opener; KeyDown "Enter"] w))
    = [SingleDetail (_activeIndex (this w)) (value (op o))] /\
  _selectedIndex (this (fst (run [KeyDown "Enter"; opener; KeyDown "Enter"] w)))
    = _activeIndex (this w) /\
  _value (this (fst (run [KeyDown "Enter"; opener; KeyDown "Enter"] w)))
    = value (op o) /\
  _showDropdown (this (fst (run [KeyDown "Enter"; opener; KeyDown "Enter"] w)))
    = false.
Proof.
  open_world w. intros -> -> Hne Ho Hin.
  assert (E1 : (si =? ai) = false) by (apply Z.eqb_neq; congruence).
  assert (H1 : handler (KeyDown "Enter")
                 (mkWorld (mkSelect ae cb fo ai fi fp si sis true os v vs false) ls)
               = mkOutcome (Normal tt)
                   (mkWorld
                      (mkSelect "false" cb fo ai fi fp ai sis false os
                         (value (op o)) vs false)
                      (List.filter
                         (fun l' => negb (Listener_eqb OnClickOutsideBound l')) ls))
                   [RemoveEventListener OnClickOutsideBound;
                    DispatchChange (SingleDetail ai (value (op o)))]).
  { eval_handler. rewrite E1. eval_handler. rewrite Ho. reflexivity. }
  cbn [run]. rewrite H1. cbn [after emitted]. clear H1.
  destruct Hin as [<-|[<-|[<-|[]]]]; eval_handler;
    rewrite ?Z.eqb_refl; eval_handler; repeat split.
Qed.

Lemma X11_commit_then_reopen_is_silent_witness :
  notifications
    (snd (run [KeyDown "Enter"; KeyDown " "; KeyDown "Enter"] abc_navigated))
    = [SingleDetail 1 "b"] /\
  _selectedIndex
    (this (fst (run [KeyDown "Enter"; KeyDown " "; KeyDown "Enter"] abc_navigated)))
    = 1 /\
  _value
    (this (fst (run [KeyDown "Enter"; KeyDown " "; KeyDown "Enter"] abc_navigated)))
    = "b" /\
  _showDropdown
    (this (fst (run [KeyDown "Enter"; KeyDown " "; KeyDown "Enter"] abc_navigated)))
    = false.
Proof.
  apply (X11_commit_then_reopen_is_silent abc_navigated
           (mkInternalOption (mkOption "B" "b" None false) 1) (KeyDown " "));
    try reflexivity.
  - vm_compute. discriminate.
  - simpl. tauto.
Defined.

(** X12: whenever the Enter key dispatches a notification, its handler
    returned normally, the notification is the only one, and its payload is
    the state afterwards: [selectedIndex] is the stored selected index,
    which names an option record, and [value] is the stored value, which is
    the value of that record. *)
Theorem X12_notification_reports_state (w : World) (d : ChangeDetail) :
  In d (notifications (emitted (handler (KeyDown "Enter") w))) ->
  completion (handler (KeyDown "Enter") w) = Normal tt /\
  notifications (emitted (handler (KeyDown "Enter") w)) = [d] /\
  d = SingleDetail (_selectedIndex (this (after (handler (KeyDown "Enter") w))))
        (_value (this (after (handler (KeyDown "Enter") w)))) /\
  exists o : InternalOption,
    js_index (_options (this (after (handler (KeyDown "Enter") w))))
      (_selectedIndex (this (after (handler (KeyDown "Enter") w)))) = Some o /\
    value (op o) = _value (this (after (handler (KeyDown "Enter") w))).
Proof.
  open_world w. cases_handler; cbn [notifications flat_map app In];
    try tauto; try congruence.
  intros [<-|[]]. repeat split. eexists. split; [reflexivity | congruence].
Qed.

Lemma X12_notification_reports_state_witness :
  completion (handler (KeyDown "Enter") abc_navigated) = Normal tt /\
  notifications (emitted (handler (KeyDown "Enter") abc_navigated))
    = [SingleDetail 1 "b"].
Proof.
  destruct (X12_notification_reports_state abc_navigated (SingleDetail 1 "b"))
    as (Hc & Hn & _).
  - simpl. left. reflexivity.
  - split; [exact Hc | exact Hn].
Defined.

Lemma notifications_app (es es' : list Effect) :
  notifications (es ++ es') = notifications es ++ notifications es'.
Proof. unfold notifications. apply flat_map_app. Qed.

Lemma enter_notifies_at_most_once (w : World) :
  (length (notifications (emitted (handler (KeyDown "Enter") w))) <= 1)%nat.
Proof.
  open_world w. cases_handler; cbn [notifications flat_map app length]; lia.
Qed.

(** X13: a run dispatches at most one change notification per press of the
    Enter key; a run without Enter dispatches none. *)
Theorem X13_notifications_bounded_by_enters (evs : list Event) : forall w : World,
  (length (notifications (snd (run evs w))) <= count_enter evs)%nat.
Proof.
  induction evs as [|ev evs IH]; intros w; [cbn; lia|].
  cbn [run]. specialize (IH (after (handler ev w))).
  destruct (run evs (after (handler ev w))) as [w' es]. cbn [snd] in *.
  rewrite notifications_app, length_app.
  unfold count_enter in *. cbn [List.filter].
  destruct ev as [|path|key|m i|nodes|val|opts| |key|v| |];
    try (rewrite only_enter_notifies by discriminate; cbn [length]; lia).
  destruct (String.eqb_spec key "Enter") as [->|Hne].
  - pose proof (enter_notifies_at_most_once w). cbn [length]. lia.
  - rewrite only_enter_notifies by congruence. cbn [length]. lia.
Qed.

(** ** Space in multi-select mode, continued *)

(** The whole outcome of a toggle. *)
Lemma space_toggle_outcome (w : World) (o : InternalOption) :
  _multiple (this w) = true ->
  _showDropdown (this w) = true ->
  js_index (_options (this w)) (_activeIndex (this w)) = Some o ->
  handler (KeyDown " ") w
    = mkOutcome (Normal tt)
        (mkWorld
           (set_selectedIndexes
              (map index
                 (List.filter (fun o' => selected (op o'))
                    (alter (set_selected (negb (selected (op o))))
                       (Z.to_nat (_activeIndex (this w))) (_options (this w)))))
              (set_options
                 (alter (set_selected (negb (selected (op o))))
                    (Z.to_nat (_activeIndex (this w))) (_options (this w)))
                 (this w)))
           (windowClickListeners w))
        [StopPropagation; PreventDefault].
Proof.
  open_world w. intros -> -> Ho. eval_handler.
  pose proof (proj1 (js_index_Some _ _ _) Ho) as [Hi _].
  destruct (Z.ltb_spec (-1) ai) as [_|]; [|lia].
  rewrite Ho. eval_handler. rewrite fold_push_selected. reflexivity.
Qed.

Lemma alter_selected_twice (opts : list InternalOption) (i : nat)
    (o : InternalOption) :
  opts !! i = Some o ->
  alter (set_selected (negb (negb (selected (op o))))) i
    (alter (set_selected (negb (selected (op o)))) i opts) = opts.
Proof.
  intros Ho. apply list_eq. intros j.
  destruct (decide (i = j)) as [<-|Hne].
  - rewrite !list_lookup_alter_eq, Ho. cbn. rewrite negb_involutive.
    destruct o as [[l v d s] ix]. reflexivity.
  - rewrite !list_lookup_alter_ne by exact Hne. reflexivity.
Qed.

(** X14: in multi-select mode, two presses of Space on an open dropdown
    whose Active Index names an option record give back the option list
    exactly as it was; the rest of the state is as before as well, except
    that [selectedIndexes] now lists the indexes of the flagged records.
    The stored [values] are not recomputed. *)
Theorem X14_space_twice_restores_options (w : World) (o : InternalOption) :
  _multiple (this w) = true ->
  _showDropdown (this w) = true ->
  js_index (_options (this w)) (_activeIndex (this w)) = Some o ->
  completes [KeyDown " "; KeyDown " "] w = true /\
  fst (run [KeyDown " "; KeyDown " "] w)
    = mkWorld
        (set_selectedIndexes
           (map index (List.filter (fun o' => selected (op o')) (_options (this w))))
           (this w))
        (windowClickListeners w) /\
  _options (this (fst (run [KeyDown " "; KeyDown " "] w))) = _options (this w) /\
  _values (this (fst (run [KeyDown " "; KeyDown " "] w))) = _values (this w).
Proof.
  intros Hm Hs Ho.
  pose proof (proj1 (js_index_Some _ _ _) Ho) as [Hi Hlook].
  pose proof (space_toggle_outcome w o Hm Hs Ho) as H1.
  set (w1 := after (handler (KeyDown " ") w)).
  assert (Ho1 : js_index (_options (this w1)) (_activeIndex (this w1))
                = Some (set_selected (negb (selected (op o))) o)).
  { subst w1. rewrite H1. cbn [after]. open_world w. apply js_index_Some. split; [exact Hi|].
    rewrite list_lookup_alter_eq, Hlook. reflexivity. }
  assert (Hm1 : _multiple (this w1) = true)
    by (subst w1; rewrite H1; cbn [after]; open_world w; exact Hm).
  assert (Hs1 : _showDropdown (this w1) = true)
    by (subst w1; rewrite H1; cbn [after]; open_world w; exact Hs).
  pose proof (space_toggle_outcome w1 _ Hm1 Hs1 Ho1) as H2.
  assert (Hw2 : after (handler (KeyDown " ") w1)
                = mkWorld
                    (set_selectedIndexes
                       (map index
                          (List.filter (fun o' => selected (op o')) (_options (this w))))
                       (this w))
                    (windowClickListeners w)).
  { rewrite H2. subst w1. rewrite H1. cbn [after]. open_world w.
    cbn [set_selected op selected].
    rewrite (alter_selected_twice os (Z.to_nat ai) o Hlook). reflexivity. }
  cbn [completes run fst]. fold w1. rewrite H1 at 1. cbn [completion].
  rewrite H2 at 1. cbn [completion]. rewrite Hw2.
  split; [reflexivity|]. split; [reflexivity|].
  open_world w. split; reflexivity.
Qed.

Lemma X14_space_twice_restores_options_witness :
  _options (this (fst (run [KeyDown " "; KeyDown " "] multi_open)))
    = _options (this multi_open) /\
  _selectedIndexes (this (fst (run [KeyDown " "; KeyDown " "] multi_open))) = [].
Proof.
  destruct (X14_space_twice_restores_options multi_open
              (mkInternalOption (mkOption "A" "a" None false) 0)
              eq_refl eq_refl eq_refl) as (_ & Hw & Hopts & _).
  split; [exact Hopts|]. rewrite Hw. reflexivity.
Defined.

Lemma js_index_out_of_range {A : Type} (l : list A) (i : Z) :
  Z.of_nat (length l) <= i -> js_index l i = None.
Proof.
  intros H. unfold js_index. destruct (Z.ltb_spec i 0); [reflexivity|].
  apply lookup_ge_None. lia.
Qed.

(** X15: in multi-select mode, Space on an open dropdown whose Active Index
    is at or past the end of the option list throws a [TypeError] after the
    two calls on the event and leaves the whole state as it was.  This is
    what happens on a multi-select widget without options after Enter has
    opened it with Active Index 0. *)
Theorem X15_space_past_the_end_throws (w : World) :
  _multiple (this w) = true ->
  (_showDropdown (this w) = true ->
   0 <= _activeIndex (this w) ->
   Z.of_nat (length (_options (this w))) <= _activeIndex (this w) ->
   handler (KeyDown " ") w
     = mkOutcome (Throw TypeError) w [StopPropagation; PreventDefault]) /\
  (_showDropdown (this w) = false ->
   _options (this w) = [] ->
   completes [KeyDown "Enter"; KeyDown " "] w = false).
Proof.
  open_world w. intros ->. split.
  - intros -> Hi Hge. eval_handler.
    destruct (Z.ltb_spec (-1) ai) as [_|]; [|lia].
    rewrite (js_index_out_of_range os ai Hge). reflexivity.
  - intros -> ->. reflexivity.
Qed.

Lemma X15_space_past_the_end_throws_witness :
  handler (KeyDown " ") (after (handler (KeyDown "Enter") (initial true)))
    = mkOutcome (Throw TypeError) (after (handler (KeyDown "Enter") (initial true)))
        [StopPropagation; PreventDefault] /\
  completes [KeyDown "Enter"; KeyDown " "] (initial true) = false.
Proof.
  split.
  - apply (proj1 (X15_space_past_the_end_throws
                    (after (handler (KeyDown "Enter") (initial true))) eq_refl));
      [reflexivity | vm_compute; discriminate | vm_compute; discriminate].
  - apply (proj2 (X15_space_past_the_end_throws (initial true) eq_refl));
      reflexivity.
Defined.

(** ** Use without exceptions *)

Ltac nav_start w H :=
  open_world w; unfold navigable in H |- *;
  cbn [this _options _activeIndex _selectedIndex _showDropdown _multiple] in H;
  let Ha := fresh "Ha" in let Hm := fresh "Hm" in let Hs := fresh "Hs" in
  destruct H as (Ha & Hm & Hs);
  match goal with
  | mu : bool |- _ =>
      match type of Hm with
      | mu = true -> _ =>
          destruct mu;
          [specialize (Hm eq_refl); clear Hs
          | destruct (Hs eq_refl) as [? ?]; clear Hs Hm]
      end
  end.

Ltac nav_finish :=
  rewrite ?length_alter;
  repeat match goal with
         | H : true = true -> _ |- _ => specialize (H eq_refl)
         end;
  try (exfalso;
       match goal with
       | H : js_index ?l ?i = None |- _ =>
           destruct (js_index_in_range l i) as [? ?]; [lia | congruence]
       end);
  repeat split; intros; try discriminate; try lia;
  try solve [intuition (try discriminate; lia)].

(** One event on a widget in use: the handler returns, the option list
    keeps its length and the indexes stay in use. *)
Lemma navigable_step (ev : Event) (w : World) :
  navigable w ->
  interaction (Z.of_nat (length (_options (this w)))) ev ->
  completion (handler ev w) = Normal tt /\
  navigable (after (handler ev w)) /\
  length (_options (this (after (handler ev w)))) = length (_options (this w)).
Proof.
  intros H Hev. destruct ev as [|path|key|m i|nodes|val|opts| |key|v| |];
    cbn [interaction] in Hev; try contradiction.
  - nav_start w H; cases_handler; nav_finish.
  - nav_start w H; unfold handler; cbn [windowClickListeners];
      destruct (existsb (Listener_eqb OnClickOutsideBound) ls);
      cases_handler; nav_finish.
  - destruct (keydown_cases key) as [->|[->|[->|[->|[->|Hnone]]]]].
    + nav_start w H; cases_handler; nav_finish.
    + nav_start w H; cases_handler; nav_finish.
    + nav_start w H; cases_handler; nav_finish.
    + nav_start w H; cases_handler; nav_finish.
    + nav_start w H; cases_handler; nav_finish.
    + rewrite Hnone. cbn [completion after]. auto.
  - nav_start w H; destruct m; cases_handler; nav_finish.
  - nav_start w H; unfold handler, filter_set;
      destruct (includes validValues val); eval_handler; nav_finish.
  - nav_start w H; cases_handler; nav_finish.
  - nav_start w H; unfold handler, _onComboboxButtonKeyDown;
      destruct (String.eqb key "Enter"); cases_handler; nav_finish.
  - nav_start w H; cases_handler; nav_finish.
  - nav_start w H; eval_handler; nav_finish.
  - nav_start w H; eval_handler; nav_finish.
Qed.

(** X16: on a widget whose indexes are in use ([navigable]) no key, click,
    hover over a rendered option, focus change, filter assignment or
    combobox input ever makes a handler throw, in either mode: every
    handler of such a run returns normally, the option list keeps its
    length, and the indexes stay in use. *)
Theorem X16_interaction_never_throws (evs : list Event) : forall w : World,
  navigable w ->
  Forall (interaction (Z.of_nat (length (_options (this w))))) evs ->
  completes evs w = true /\
  navigable (fst (run evs w)) /\
  length (_options (this (fst (run evs w)))) = length (_options (this w)).
Proof.
  induction evs as [|ev evs IH]; intros w H Hall.
  - cbn. auto.
  - inversion Hall as [|? ? Hev Hrest]; subst.
    destruct (navigable_step ev w H Hev) as (Hc & Hn & Hlen).
    cbn [completes run]. rewrite Hc.
    rewrite <- Hlen in Hrest.
    destruct (IH (after (handler ev w)) Hn Hrest) as (Hc' & Hn' & Hlen').
    destruct (run evs (after (handler ev w))) as [w' es]. cbn [fst] in *.
    split; [exact Hc'|]. split; [exact Hn'|]. congruence.
Qed.

Lemma abc_open_navigable : navigable abc_open.
Proof. unfold navigable. cbn. repeat split; intros; try discriminate; lia. Qed.

Lemma X16_interaction_never_throws_witness :
  completes [KeyDown "ArrowDown"; OptionMouseOver true 2; KeyDown "Enter";
             KeyDown " "; KeyDown "ArrowUp"; WindowClick [OtherTarget 0];
             ComboboxInputInput "b"; KeyDown "Enter"] abc_open = true.
Proof.
  apply (X16_interaction_never_throws _ abc_open abc_open_navigable).
  repeat (constructor; [cbn; try exact I; lia|]). constructor.
Defined.

(** ** The [filter] property, continued *)

Lemma filter_valid_step (ev : Event) (w : World) :
  In (_filter (this w)) validValues ->
  In (_filter (this (after (handler ev w)))) validValues.
Proof.
  intros H. destruct ev as [|path|key|m i|nodes|val|opts| |key|v| |].
  - open_world w. cases_handler; exact H.
  - open_world w. unfold handler. cbn [windowClickListeners].
    destruct (existsb (Listener_eqb OnClickOutsideBound) ls);
      cases_handler; exact H.
  - destruct (keydown_cases key) as [->|[->|[->|[->|[->|Hnone]]]]];
      try (open_world w; cases_handler; exact H).
    rewrite Hnone. exact H.
  - open_world w. destruct m; cases_handler; exact H.
  - open_world w. eval_handler.
    destruct (ingest nodes) as [[opts cur] stat]. cases_handler; exact H.
  - open_world w. unfold handler, filter_set.
    destruct (includes validValues val) eqn:E.
    + apply includes_In in E. exact E.
    + cbn. tauto.
  - open_world w. exact H.
  - open_world w. cases_handler; exact H.
  - open_world w. unfold handler, _onComboboxButtonKeyDown.
    destruct (String.eqb key "Enter"); cases_handler; exact H.
  - open_world w. cases_handler; exact H.
  - exact H.
  - exact H.
Qed.

(** X17: whatever is assigned to [filter] and whatever else happens, the
    search method read back from a constructed widget is always one of
    contains, fuzzy, startsWith, startsWithPerTerm. *)
Theorem X17_filter_always_valid (multiple : bool) (evs : list Event) :
  In (filter_get (this (fst (run evs (initial multiple))))) validValues.
Proof.
  unfold filter_get.
  assert (G : forall w, In (_filter (this w)) validValues ->
                        In (_filter (this (fst (run evs w)))) validValues).
  { induction evs as [|ev evs IH]; intros w H; [exact H|].
    cbn [run]. specialize (IH _ (filter_valid_step ev w H)).
    destruct (run evs (after (handler ev w))) as [w' es]. exact IH. }
  apply G. cbn. tauto.
Qed.

(** ** The options shown in the dropdown *)

(** X18: whatever the filter engine computes, the dropdown shows the whole
    option list when the widget is not a combobox, and right after the
    combobox button toggled it (by click or Enter), because the toggle
    empties the filter pattern.  After text typed into the input of a
    combobox the dropdown is open and shows the engine's result for the
    options, that text and the current search method. *)
Theorem X18_filtered_options
    (filterOptionsByPattern :
       list InternalOption -> string -> SearchMethod -> list InternalOption)
    (w : World) :
  (combobox (this w) = false ->
   _filteredOptions filterOptionsByPattern (this w) = _options (this w)) /\
  (forall ev : Event,
     In ev [ComboboxButtonClick; ComboboxButtonKeyDown "Enter"] ->
     _filteredOptions filterOptionsByPattern (this (after (handler ev w)))
       = _options (this w)) /\
  (forall v : string,
     combobox (this w) = true ->
     v <> EmptyString ->
     _showDropdown (this (after (handler (ComboboxInputInput v) w))) = true /\
     _filteredOptions filterOptionsByPattern
       (this (after (handler (ComboboxInputInput v) w)))
       = filterOptionsByPattern (_options (this w)) v (_filter (this w))).
Proof.
  split; [|split].
  - open_world w. intros ->. reflexivity.
  - intros ev [<-|[<-|[]]]; open_world w; cases_handler;
      unfold _filteredOptions; cbn [combobox _filterPattern _options];
      now rewrite orb_true_r.
  - intros v Hc Hv. open_world w. subst cb. cases_handler;
      unfold _filteredOptions; cbn [combobox _filterPattern _options _filter negb orb];
      (destruct (String.eqb_spec v EmptyString); [contradiction|]);
      split; reflexivity.
Qed.

Lemma X18_filtered_options_witness :
  _filteredOptions (fun _ _ _ => []) (this abc_open) = _options (this abc_open) /\
  _filteredOptions (fun _ _ _ => [])
    (this (after (handler ComboboxButtonClick abc_open)))
    = _options (this abc_open).
Proof.
  split.
  - apply (proj1 (X18_filtered_options (fun _ _ _ => []) abc_open)). reflexivity.
  - apply (proj1 (proj2 (X18_filtered_options (fun _ _ _ => []) abc_open))).
    simpl. tauto.
Defined.

(** ** The outside-click listener, continued *)

(** X19: along every run without the Escape key that starts with the
    listener registered exactly when the dropdown is shown (as on a
    constructed widget), the listener on [window] is registered once while
    the dropdown is shown and not at all while it is hidden; typing into an
    open combobox does not register it a second time. *)
Theorem X19_listener_follows_visibility (evs : list Event) (w : World) :
  Forall (fun ev => ev <> KeyDown "Escape") evs ->
  paired w ->
  windowClickListeners (fst (run evs w))
    = if _showDropdown (this (fst (run evs w))) then [OnClickOutsideBound] else [].
Proof.
  intros Hall H. exact (paired_run evs w Hall H).
Qed.

Lemma X19_listener_follows_visibility_witness :
  windowClickListeners
    (fst (run [FaceClick; ComboboxInputInput "a"; ComboboxInputInput "ab"]
            (initial false)))
    = [OnClickOutsideBound].
Proof.
  apply (X19_listener_follows_visibility
           [FaceClick; ComboboxInputInput "a"; ComboboxInputInput "ab"]
           (initial false)).
  - repeat (constructor; [discriminate|]). constructor.
  - reflexivity.
Defined.

(** X20: opening and closing a closed, listener-free widget [n] times by
    clicks on its face calls [addEventListener] and [removeEventListener]
    [n] times each and ends closed with no listener on [window]. *)
Theorem X20_face_click_cycles_balanced (n : nat) (w : World) :
  windowClickListeners w = [] ->
  _showDropdown (this w) = false ->
  windowClickListeners
    (fst (run (concat (repeat [FaceClick; FaceClick] n)) w)) = [] /\
  _showDropdown
    (this (fst (run (concat (repeat [FaceClick; FaceClick] n)) w))) = false /\
  count_add (snd (run (concat (repeat [FaceClick; FaceClick] n)) w)) = n /\
  count_remove (snd (run (concat (repeat [FaceClick; FaceClick] n)) w)) = n.
Proof.
  intros Hl Hc. apply face_click_cycles; [|exact Hc].
  unfold paired. rewrite Hc. exact Hl.
Qed.

Lemma X20_face_click_cycles_balanced_witness :
  windowClickListeners
    (fst (run (concat (repeat [FaceClick; FaceClick] 3)) (initial true))) = [] /\
  _showDropdown
    (this (fst (run (concat (repeat [FaceClick; FaceClick] 3)) (initial true))))
    = false /\
  count_add (snd (run (concat (repeat [FaceClick; FaceClick] 3)) (initial true)))
    = 3%nat /\
  count_remove (snd (run (concat (repeat [FaceClick; FaceClick] 3)) (initial true)))
    = 3%nat.
Proof.
  apply (X20_face_click_cycles_balanced 3 (initial true)); reflexivity.
Defined.

(** ** Enter, continued *)

(** X21: Enter on an open single-select dropdown whose Active Index differs
    from the selected index and names no option record (it is -1, or at or
    past the end of the list) throws a [TypeError].  By then the dropdown
    is closed, its listener removed and the selected index overwritten with
    the Active Index; the stored value is unchanged and nothing is
    dispatched. *)
Theorem X21_enter_without_record_throws (w : World) :
  _multiple (this w) = false ->
  _showDropdown (this w) = true ->
  _activeIndex (this w) <> _selectedIndex (this w) ->
  (_activeIndex (this w) < 0 \/
   Z.of_nat (length (_options (this w))) <= _activeIndex (this w)) ->
  completion (handler (KeyDown "Enter") w) = Throw TypeError /\
  _showDropdown (this (after (handler (KeyDown "Enter") w))) = false /\
  _selectedIndex (this (after (handler (KeyDown "Enter") w))) = _activeIndex (this w) /\
  _value (this (after (handler (KeyDown "Enter") w))) = _value (this w) /\
  emitted (handler (KeyDown "Enter") w) = [RemoveEventListener OnClickOutsideBound].
Proof.
  open_world w. intros -> -> Hne Hout.
  assert (Hnone : js_index os ai = None).
  { destruct Hout as [Hneg|Hge].
    - unfold js_index. destruct (Z.ltb_spec ai 0); [reflexivity | lia].
    - apply js_index_out_of_range, Hge. }
  assert (E : (si =? ai) = false) by (apply Z.eqb_neq; congruence).
  eval_handler. rewrite E. eval_handler. rewrite Hnone. repeat split.
Qed.

Lemma X21_enter_without_record_throws_witness :
  completion (handler (KeyDown "Enter") late_preselection) = Throw TypeError /\
  _showDropdown (this (after (handler (KeyDown "Enter") late_preselection))) = false /\
  _selectedIndex (this (after (handler (KeyDown "Enter") late_preselection))) = -1 /\
  _value (this (after (handler (KeyDown "Enter") late_preselection))) = EmptyString /\
  emitted (handler (KeyDown "Enter") late_preselection)
    = [RemoveEventListener OnClickOutsideBound].
Proof.
  apply (X21_enter_without_record_throws late_preselection); try reflexivity.
  - vm_compute. discriminate.
  - left. vm_compute. reflexivity.
Defined.

(** X22: pointer and keyboard together: hovering a rendered option of an
    open single-select dropdown and pressing Enter selects that option,
    when it is not the selected one already: the selected index and value
    become the hovered option's, the dropdown closes and exactly one
    notification with that index and value is dispatched.  A hover over an
    element that is not an option changes nothing. *)
Theorem X22_hover_then_enter_selects (w : World) (i : Z) (o : InternalOption) :
  (_multiple (this w) = false ->
   _showDropdown (this w) = true ->
   i <> _selectedIndex (this w) ->
   js_index (_options (this w)) i = Some o ->
   completes [OptionMouseOver true i; KeyDown "Enter"] w = true /\
   notifications (snd (run [OptionMouseOver true i; KeyDown "Enter"] w))
     = [SingleDetail i (value (op o))] /\
   _selectedIndex (this (fst (run [OptionMouseOver true i; KeyDown "Enter"] w))) = i /\
   _value (this (fst (run [OptionMouseOver true i; KeyDown "Enter"] w)))
     = value (op o) /\
   _showDropdown (this (fst (run [OptionMouseOver true i; KeyDown "Enter"] w)))
     = false) /\
  handler (OptionMouseOver false i) w = mkOutcome (Normal tt) w [].
Proof.
  split; [|destruct w as [s ls]; reflexivity].
  open_world w. intros -> -> Hne Ho.
  assert (E : (si =? i) = false) by (apply Z.eqb_neq; congruence).
  cbn [completes run]. eval_handler. rewrite E. eval_handler. rewrite Ho.
  repeat split.
Qed.

Lemma X22_hover_then_enter_selects_witness :
  notifications (snd (run [OptionMouseOver true 2; KeyDown "Enter"] abc_open))
    = [SingleDetail 2 "c"] /\
  _showDropdown (this (fst (run [OptionMouseOver true 2; KeyDown "Enter"] abc_open)))
    = false.
Proof.
  destruct (proj1 (X22_hover_then_enter_selects abc_open 2
                     (mkInternalOption (mkOption "C" "c" None false) 2)))
    as (_ & Hn & _ & _ & Hc); try reflexivity.
  - vm_compute. discriminate.
  - split; [exact Hn | exact Hc].
Defined.
